(** * Dragon-fruit bloom tracker: yield ledger, harvest forecaster,
      abortion analytics, dashboard counters and location catalog.

    A shallow embedding of the computations found in
    [utils/farmLocations.ts], [app/(tabs)/harvest.tsx],
    [app/(tabs)/abortion.tsx], [app/(tabs)/index.tsx] and
    [app/(tabs)/analytics.tsx], followed by the properties proved about
    them.

    Conventions.
    - JavaScript [number]s that hold counts and day differences are [Z];
      abortion rates, which the source computes with a division, are exact
      rationals [Q] (the double the source computes is the rounding of that
      rational; rounding is monotone, so bounds by 0 and 100 carry over).
    - JavaScript strings are [string]; [===] on strings is [String.eqb] and
      [>=] on strings is the lexicographic order on code units.
    - An optional field ([notes?: string]) is an [option].
    - [Array.prototype.sort] is stable (ECMAScript 2019), so for a comparator
      that is a total preorder its result is the one that stable insertion
      computes; [Map] keeps insertion order, so it is an association list. *)

From Stdlib Require Import ZArith List String Ascii Bool Lia.
From Stdlib Require Import QArith Sorting.Sorted Sorting.Permutation.
From Stdlib Require Import DecimalString DecimalPos.
Import ListNotations.
Local Open Scope string_scope.
Local Open Scope Z_scope.

(* ================================================================== *)
(** * Part I. Definitions *)
(* ================================================================== *)

(** ** JavaScript helpers *)

(** Template-literal rendering of an integer-valued [number]. *)
Definition showZ (z : Z) : string := NilZero.string_of_int (Z.to_int z).

(** [s[0]] for a non-empty string (the empty string for an empty one). *)
Definition charAt0 (s : string) : string := substring 0 1 s.

(** [String.fromCharCode(n)] for a code below 256. *)
Definition fromCharCode (n : nat) : string := String (ascii_of_nat n) "".

(** [a >= b] on strings. *)
Definition string_geb (a b : string) : bool := String.leb b a.

(** [xs.reduce((sum, x) => sum + f(x), 0)]. *)
Definition reduceSum {A : Type} (f : A -> Z) (xs : list A) : Z :=
  fold_left (fun sum x => sum + f x) xs 0.

(** [Array.prototype.sort(cmp)]: the comparator's result is kept as its
    sign ([Lt] negative, [Eq] zero, [Gt] positive). *)
Section JsSort.
Context {A : Type} (cmp : A -> A -> comparison).

Fixpoint insertStable (x : A) (l : list A) : list A :=
  match l with
  | [] => [x]
  | y :: l' =>
      match cmp x y with
      | Gt => y :: insertStable x l'
      | _ => x :: y :: l'
      end
  end.

Definition sort (l : list A) : list A := fold_right insertStable [] l.
End JsSort.

(** [xs.slice(0, n)]. *)
Definition slice0 {A : Type} (n : nat) (xs : list A) : list A := firstn n xs.

(** [parseInt(s)] without a radix, on ASCII input: leading white space is
    skipped, a sign is read, a [0x]/[0X] prefix selects base 16, and the
    longest run of digits is the value; [None] stands for [NaN]. *)
Module ParseInt.
Definition isSpace (c : ascii) : bool :=
  let n := nat_of_ascii c in
  orb (Nat.eqb n 32) (andb (Nat.leb 9 n) (Nat.leb n 13)).

Fixpoint skipSpace (s : string) : string :=
  match s with
  | String c s' => if isSpace c then skipSpace s' else s
  | EmptyString => s
  end.

Definition digitVal (radix : Z) (c : ascii) : option Z :=
  let n := Z.of_nat (nat_of_ascii c) in
  let v :=
    if andb (48 <=? n) (n <=? 57) then Some (n - 48)
    else if andb (97 <=? n) (n <=? 122) then Some (n - 87)
    else if andb (65 <=? n) (n <=? 90) then Some (n - 55)
    else None in
  match v with
  | Some d => if d <? radix then Some d else None
  | None => None
  end.

(** Reads digits while they last; [acc] is [None] until one was read. *)
Fixpoint digits (radix : Z) (acc : option Z) (s : string) : option Z :=
  match s with
  | String c s' =>
      match digitVal radix c with
      | Some d =>
          digits radix
            (Some (match acc with Some a => a * radix + d | None => d end)) s'
      | None => acc
      end
  | EmptyString => acc
  end.

Definition unsigned (s : string) : option Z :=
  match s with
  | String "0" (String "x" s') => digits 16 None s'
  | String "0" (String "X" s') => digits 16 None s'
  | _ => digits 10 None s
  end.

Definition parseInt (s : string) : option Z :=
  match skipSpace s with
  | String "-" s' => option_map Z.opp (unsigned s')
  | String "+" s' => unsigned s'
  | s' => unsigned s'
  end.
End ParseInt.
Definition parseInt := ParseInt.parseInt.

(** ** types/farm.ts *)

Inductive Variety := Red | White | Yellow.

Definition varietyName (v : Variety) : string :=
  match v with Red => "Red" | White => "White" | Yellow => "Yellow" end.

Module BloomEntry.
Record t := mk {
  id : string;
  date : string;
  location : string;
  variety : Variety;
  count : Z;
  maturityPeriodDays : Z;
  imageUri : option string;
  notes : option string;
  createdAt : string
}.
End BloomEntry.

Module AbortionEntry.
Record t := mk {
  id : string;
  abortionDate : string;
  bloomEntryId : string;
  abortedCount : Z;
  notes : option string;
  imageUri : option string;
  createdAt : string
}.
End AbortionEntry.

Module HarvestEntry.
Record t := mk {
  id : string;
  harvestDate : string;
  bloomEntryId : string;
  harvestedCount : Z;
  notes : option string;
  imageUri : option string;
  createdAt : string
}.
End HarvestEntry.

Module HarvestForecast.
Record t := mk {
  id : string;
  bloomEntry : BloomEntry.t;
  expectedHarvestDate : string;
  expectedCount : Z;
  totalAborted : Z;
  remainingCount : Z;
  isReadyToday : bool;
  daysUntilHarvest : Z
}.
End HarvestForecast.

Inductive LocationType := Greenhouse | Trellis | DoublePole.
Inductive Zone := North | South.

Definition zoneName (z : Zone) : string :=
  match z with North => "North" | South => "South" end.

Module FarmLocation.
Record t := mk {
  id : string;
  type : LocationType;
  zone : Zone;
  name : string
}.
End FarmLocation.

(** ** utils/farmLocations.ts *)

Module FarmLocations.
Definition zones : list Zone := [North; South].

Inductive Position := Upper | Lower.
Definition positionName (p : Position) : string :=
  match p with Upper => "Upper" | Lower => "Lower" end.
Definition positions : list Position := [Upper; Lower].

Definition showN (n : nat) : string := showZ (Z.of_nat n).

Definition generateGreenhouseLocations : list FarmLocation.t :=
  flat_map (fun zone =>
    flat_map (fun gh =>
      flat_map (fun row =>
        map (fun pole =>
          let poleLetter := fromCharCode (65 + pole) in
          FarmLocation.mk
            (charAt0 (zoneName zone) ++ showN gh ++ showN row ++ poleLetter)
            Greenhouse
            zone
            (zoneName zone ++ " GH" ++ showN gh ++ " Row" ++ showN row
               ++ " Pole" ++ poleLetter))
          (seq 0 12))
        (seq 1 3))
      (seq 1 4))
    zones.

Definition generateTrellisLocations : list FarmLocation.t :=
  flat_map (fun zone =>
    flat_map (fun trellis =>
      map (fun section =>
        let sectionLetter := fromCharCode (65 + section) in
        FarmLocation.mk
          (charAt0 (zoneName zone) ++ "T" ++ showN trellis ++ sectionLetter)
          Trellis
          zone
          (zoneName zone ++ " Trellis " ++ showN trellis ++ " Section "
             ++ sectionLetter))
        (seq 0 10))
      (seq 1 4))
    zones.

Definition generateDoublePoleLocations : list FarmLocation.t :=
  flat_map (fun zone =>
    flat_map (fun position =>
      map (fun pole =>
        FarmLocation.mk
          (charAt0 (zoneName zone) ++ "DP" ++ charAt0 (positionName position)
             ++ showN pole)
          DoublePole
          zone
          (zoneName zone ++ " Double Pole " ++ positionName position ++ " "
             ++ showN pole))
        (seq 1 6))
      positions)
    zones.

Definition getAllFarmLocations : list FarmLocation.t :=
  generateGreenhouseLocations
    ++ generateTrellisLocations
    ++ generateDoublePoleLocations.

Definition locationTypeEqb (a b : LocationType) : bool :=
  match a, b with
  | Greenhouse, Greenhouse | Trellis, Trellis | DoublePole, DoublePole => true
  | _, _ => false
  end.

Definition getLocationsByType (type : LocationType) : list FarmLocation.t :=
  filter (fun location => locationTypeEqb (FarmLocation.type location) type)
    getAllFarmLocations.

Definition getLocationById (id : string) : option FarmLocation.t :=
  find (fun location => String.eqb (FarmLocation.id location) id)
    getAllFarmLocations.
End FarmLocations.

(** ** utils/dateUtils.ts

    Every screen imports [formatDate], [addDays] and [daysBetween] from
    [@/utils/dateUtils]; the screens only compose them with [new Date(s)]
    ([newDate] below), so the four are an interface here and every property
    stated over it holds for any implementation. *)

Class DateUtils := {
  JsDate : Type;
  newDate : string -> JsDate;
  addDays : JsDate -> Z -> JsDate;
  formatDate : JsDate -> string;
  daysBetween : string -> string -> Z
}.

(** What a submit handler does once validation is over: it shows an alert
    and returns, or it hands the new entry to the storage layer
    ([saveAbortionEntry], [saveHarvestEntry]). *)
Inductive SaveOutcome (E : Type) : Type :=
| Alerted (title message : string)
| Persist (entry : E).
Arguments Alerted {E} title message.
Arguments Persist {E} entry.

(** [s || undefined] for an optional text field. *)
Definition orUndefined (s : string) : option string :=
  if String.eqb s "" then None else Some s.

(** ** app/(tabs)/harvest.tsx *)

Module Harvest.
Section WithDates.
Context `{DateUtils}.

(** The [map] callback of [loadHarvestData]. *)
Definition forecastOf (today : string)
    (abortionEntries : list AbortionEntry.t)
    (harvestEntries : list HarvestEntry.t)
    (bloom : BloomEntry.t) : HarvestForecast.t :=
  let expectedHarvestDate :=
    formatDate (addDays (newDate (BloomEntry.date bloom))
                        (BloomEntry.maturityPeriodDays bloom)) in
  let totalAborted :=
    reduceSum AbortionEntry.abortedCount
      (filter (fun abortion =>
                 String.eqb (AbortionEntry.bloomEntryId abortion)
                            (BloomEntry.id bloom))
              abortionEntries) in
  let totalHarvested :=
    reduceSum HarvestEntry.harvestedCount
      (filter (fun harvest =>
                 String.eqb (HarvestEntry.bloomEntryId harvest)
                            (BloomEntry.id bloom))
              harvestEntries) in
  let remainingCount := BloomEntry.count bloom - totalAborted - totalHarvested in
  let daysUntilHarvest := daysBetween today expectedHarvestDate in
  let isReadyToday := String.eqb expectedHarvestDate today in
  {| HarvestForecast.id := BloomEntry.id bloom;
     HarvestForecast.bloomEntry := bloom;
     HarvestForecast.expectedHarvestDate := expectedHarvestDate;
     HarvestForecast.expectedCount := BloomEntry.count bloom;
     HarvestForecast.totalAborted := totalAborted;
     HarvestForecast.remainingCount := remainingCount;
     HarvestForecast.isReadyToday := isReadyToday;
     HarvestForecast.daysUntilHarvest :=
       if string_geb expectedHarvestDate today
       then daysUntilHarvest else - daysUntilHarvest |}.

(** The [sort] callback: ready today first, then by days until harvest. *)
Definition compareForecasts (a b : HarvestForecast.t) : comparison :=
  if andb (HarvestForecast.isReadyToday a) (negb (HarvestForecast.isReadyToday b))
  then Lt
  else if andb (negb (HarvestForecast.isReadyToday a)) (HarvestForecast.isReadyToday b)
  then Gt
  else HarvestForecast.daysUntilHarvest a ?= HarvestForecast.daysUntilHarvest b.

(** [loadHarvestData]: the list handed to [setHarvestForecasts];
    [today] is [formatDate(new Date())]. *)
Definition loadHarvestData (today : string)
    (bloomEntries : list BloomEntry.t)
    (abortionEntries : list AbortionEntry.t)
    (harvestEntries : list HarvestEntry.t) : list HarvestForecast.t :=
  sort compareForecasts
    (filter (fun forecast => 0 <? HarvestForecast.remainingCount forecast)
       (map (forecastOf today abortionEntries harvestEntries) bloomEntries)).
End WithDates.

(** The component state [handleSaveHarvest] reads. *)
Record FormState := {
  harvestForecasts : list HarvestForecast.t;
  selectedBloom : option BloomEntry.t;
  harvestDate : string;
  harvestedCount : string;
  notes : string;
  imageUri : string
}.

(** [handleSaveHarvest]; [now] is [Date.now().toString()] and [nowIso] is
    [new Date().toISOString()]. *)
Definition handleSaveHarvest (st : FormState) (now nowIso : string)
    : SaveOutcome HarvestEntry.t :=
  match selectedBloom st with
  | None => Alerted "Error" "No bloom selected"
  | Some selected =>
      match parseInt (harvestedCount st) with
      | None => Alerted "Validation Error" "Please enter a valid harvest count"
      | Some countNum =>
          if countNum <=? 0
          then Alerted "Validation Error" "Please enter a valid harvest count"
          else
            let entry :=
              {| HarvestEntry.id := now;
                 HarvestEntry.harvestDate := harvestDate st;
                 HarvestEntry.bloomEntryId := BloomEntry.id selected;
                 HarvestEntry.harvestedCount := countNum;
                 HarvestEntry.notes := orUndefined (notes st);
                 HarvestEntry.imageUri := orUndefined (imageUri st);
                 HarvestEntry.createdAt := nowIso |} in
            match find (fun f => String.eqb (HarvestForecast.id f)
                                            (BloomEntry.id selected))
                       (harvestForecasts st) with
            | Some forecast =>
                if HarvestForecast.remainingCount forecast <? countNum
                then Alerted "Validation Error"
                       ("Cannot harvest more than "
                          ++ showZ (HarvestForecast.remainingCount forecast)
                          ++ " remaining fruits")
                else Persist entry
            | None => Persist entry
            end
      end
  end.
End Harvest.

(** ** app/(tabs)/abortion.tsx *)

Module Abortion.
(** [{ ...bloom, remainingCount }] *)
Record BloomWithRemaining := {
  bloom : BloomEntry.t;
  remainingCount : Z
}.

(** [loadBloomEntries]: the list handed to [setBloomEntries]. *)
Definition loadBloomEntries
    (blooms : list BloomEntry.t) (abortions : list AbortionEntry.t)
    : list BloomWithRemaining :=
  filter (fun bloom => 0 <? remainingCount bloom)
    (map (fun bloom =>
            let totalAborted :=
              reduceSum AbortionEntry.abortedCount
                (filter (fun abortion =>
                           String.eqb (AbortionEntry.bloomEntryId abortion)
                                      (BloomEntry.id bloom))
                        abortions) in
            {| bloom := bloom;
               remainingCount := BloomEntry.count bloom - totalAborted |})
         blooms).

(** The component state [handleSave] reads; the selected bloom is one of
    the items [loadBloomEntries] produced. *)
Record FormState := {
  selectedBloom : option BloomWithRemaining;
  abortionDate : string;
  abortedCount : string;
  notes : string
}.

Definition handleSave (st : FormState) (now nowIso : string)
    : SaveOutcome AbortionEntry.t :=
  match selectedBloom st with
  | None => Alerted "Validation Error" "Please select a bloom entry"
  | Some selected =>
      match parseInt (abortedCount st) with
      | None => Alerted "Validation Error" "Please enter a valid abortion count"
      | Some countNum =>
          if countNum <=? 0
          then Alerted "Validation Error" "Please enter a valid abortion count"
          else if remainingCount selected <? countNum
          then Alerted "Validation Error"
                 ("Cannot abort more than " ++ showZ (remainingCount selected)
                    ++ " remaining flowers")
          else Persist
                 {| AbortionEntry.id := now;
                    AbortionEntry.abortionDate := abortionDate st;
                    AbortionEntry.bloomEntryId := BloomEntry.id (bloom selected);
                    AbortionEntry.abortedCount := countNum;
                    AbortionEntry.notes := orUndefined (notes st);
                    AbortionEntry.imageUri := None;
                    AbortionEntry.createdAt := nowIso |}
      end
  end.
End Abortion.

(** ** app/(tabs)/index.tsx

    The expressions of the counters in the [try] block of
    [loadDashboardData], over the loaded bloom and abortion collections;
    [today] is [formatDate(new Date())]. They are not the loader: the
    loader calls [getHarvestEntries()], a name [index.tsx] does not import,
    before it reaches them, and is [DashboardPage.loadDashboardData]
    below. *)

Module Dashboard.
Section WithDates.
Context `{DateUtils}.

(** [xs.length] *)
Definition jsLength {A : Type} (xs : list A) : Z := Z.of_nat (List.length xs).

Definition todayBlooms (today : string) (bloomEntries : list BloomEntry.t) : Z :=
  jsLength (filter (fun entry => String.eqb (BloomEntry.date entry) today)
              bloomEntries).

Definition todayAbortions (today : string)
    (abortionEntries : list AbortionEntry.t) : Z :=
  jsLength (filter (fun entry => String.eqb (AbortionEntry.abortionDate entry) today)
              abortionEntries).

Definition readyToHarvestToday (today : string)
    (bloomEntries : list BloomEntry.t) : Z :=
  jsLength
    (filter (fun bloom =>
               let harvestDate :=
                 formatDate (addDays (newDate (BloomEntry.date bloom))
                                     (BloomEntry.maturityPeriodDays bloom)) in
               String.eqb harvestDate today)
            bloomEntries).

Definition totalActiveBlooms
    (bloomEntries : list BloomEntry.t)
    (abortionEntries : list AbortionEntry.t) : Z :=
  fold_left
    (fun sum bloom =>
       let totalAborted :=
         reduceSum AbortionEntry.abortedCount
           (filter (fun abortion =>
                      String.eqb (AbortionEntry.bloomEntryId abortion)
                                 (BloomEntry.id bloom))
                   abortionEntries) in
       sum + (BloomEntry.count bloom - totalAborted))
    bloomEntries 0.
End WithDates.
End Dashboard.

(** ** app/(tabs)/analytics.tsx *)

Module Stats.
(** [{ total: number; aborted: number }] *)
Record t := mk { total : Z; aborted : Z }.
End Stats.

Module AbortionRateData.
Record t := mk { location : string; rate : Q; total : Z; aborted : Z }.
End AbortionRateData.

Module ChartData.
Record t := mk { x : string; y : Q }.
End ChartData.

Module Analytics.
(** [Map<string, { total; aborted }>], in insertion order. *)
Definition StatsMap := list (string * Stats.t).

Fixpoint mapGet (k : string) (m : StatsMap) : option Stats.t :=
  match m with
  | [] => None
  | (k', v) :: m' => if String.eqb k' k then Some v else mapGet k m'
  end.

(** [Map.prototype.set]: a present key keeps its place, a new key goes
    last. *)
Fixpoint mapSet (k : string) (v : Stats.t) (m : StatsMap) : StatsMap :=
  match m with
  | [] => [(k, v)]
  | (k', v') :: m' =>
      if String.eqb k' k then (k, v) :: m' else (k', v') :: mapSet k v m'
  end.

(** [stats.get(k) || { total: 0, aborted: 0 }] *)
Definition getOrZero (k : string) (m : StatsMap) : Stats.t :=
  match mapGet k m with
  | Some current => current
  | None => Stats.mk 0 0
  end.

(** The two aggregations run the same two loops and differ in the key
    only ([bloom.location], [bloom.variety]); [keyOf] is that key. *)
Section Grouping.
Variable keyOf : BloomEntry.t -> string.

(** Body of [bloomEntries.forEach]. *)
Definition addBloom (stats : StatsMap) (bloom : BloomEntry.t) : StatsMap :=
  let current := getOrZero (keyOf bloom) stats in
  mapSet (keyOf bloom)
    (Stats.mk (Stats.total current + BloomEntry.count bloom)
              (Stats.aborted current))
    stats.

(** Body of [abortionEntries.forEach]. *)
Definition addAbortion (bloomEntries : list BloomEntry.t)
    (stats : StatsMap) (abortion : AbortionEntry.t) : StatsMap :=
  match find (fun b => String.eqb (BloomEntry.id b)
                                  (AbortionEntry.bloomEntryId abortion))
             bloomEntries with
  | Some bloom =>
      let current := getOrZero (keyOf bloom) stats in
      mapSet (keyOf bloom)
        (Stats.mk (Stats.total current)
                  (Stats.aborted current + AbortionEntry.abortedCount abortion))
        stats
  | None => stats
  end.

Definition groupStats (bloomEntries : list BloomEntry.t)
    (abortionEntries : list AbortionEntry.t) : StatsMap :=
  fold_left (addAbortion bloomEntries) abortionEntries
    (fold_left addBloom bloomEntries []).
End Grouping.

Definition locationStats := groupStats BloomEntry.location.
Definition varietyStats :=
  groupStats (fun bloom => varietyName (BloomEntry.variety bloom)).

(** [stats.total > 0 ? (stats.aborted / stats.total) * 100 : 0] *)
Definition rateOf (stats : Stats.t) : Q :=
  if 0 <? Stats.total stats
  then ((inject_Z (Stats.aborted stats) / inject_Z (Stats.total stats)) * 100)%Q
  else 0%Q.

(** [q > 0] on a rate. *)
Definition Qpositive (q : Q) : bool :=
  match (0 ?= q)%Q with Lt => true | _ => false end.

Definition locationItem (entry : string * Stats.t) : AbortionRateData.t :=
  let '(location, stats) := entry in
  {| AbortionRateData.location := location;
     AbortionRateData.rate := rateOf stats;
     AbortionRateData.total := Stats.total stats;
     AbortionRateData.aborted := Stats.aborted stats |}.

(** [(a, b) => b.rate - a.rate] *)
Definition compareLocationRates (a b : AbortionRateData.t) : comparison :=
  (AbortionRateData.rate b ?= AbortionRateData.rate a)%Q.

Definition locationRates (bloomEntries : list BloomEntry.t)
    (abortionEntries : list AbortionEntry.t) : list AbortionRateData.t :=
  slice0 10
    (sort compareLocationRates
       (filter (fun item => 0 <? AbortionRateData.total item)
          (map locationItem (locationStats bloomEntries abortionEntries)))).

Definition varietyItem (entry : string * Stats.t) : ChartData.t :=
  let '(variety, stats) := entry in
  {| ChartData.x := variety; ChartData.y := rateOf stats |}.

(** [(a, b) => b.y - a.y] *)
Definition compareVarietyRates (a b : ChartData.t) : comparison :=
  (ChartData.y b ?= ChartData.y a)%Q.

Definition varietyRates (bloomEntries : list BloomEntry.t)
    (abortionEntries : list AbortionEntry.t) : list ChartData.t :=
  slice0 10
    (sort compareVarietyRates
       (filter (fun item => Qpositive (ChartData.y item))
          (map varietyItem (varietyStats bloomEntries abortionEntries)))).
End Analytics.

(** ** A calendar for [DateUtils] *)

Module Calendar.
(** Modelled from the spec: [utils/dateUtils.ts] is not among the source
    files. The spec gives the expected date as bloom date plus maturity
    period, "calendar addition, no timezone shift", and the days until
    harvest as the calendar-day difference, whose sign the forecaster adds
    itself. Dates are [YYYY-MM-DD] texts; a date value is a day number of
    the proleptic Gregorian calendar, [None] for any other text. *)

Definition digit (c : ascii) : option Z :=
  let n := Z.of_nat (nat_of_ascii c) in
  if andb (48 <=? n) (n <=? 57) then Some (n - 48) else None.

Definition number (cs : list ascii) : option Z :=
  fold_left (fun acc c =>
               match acc, digit c with
               | Some a, Some d => Some (a * 10 + d)
               | _, _ => None
               end) cs (Some 0).

Definition daysFromCivil (y m d : Z) : Z :=
  let y' := if m <=? 2 then y - 1 else y in
  let era := y' / 400 in
  let yoe := y' - era * 400 in
  let doy := (153 * (if 2 <? m then m - 3 else m + 9) + 2) / 5 + d - 1 in
  let doe := yoe * 365 + yoe / 4 - yoe / 100 + doy in
  era * 146097 + doe - 719468.

Definition civilFromDays (z : Z) : Z * Z * Z :=
  let z' := z + 719468 in
  let era := z' / 146097 in
  let doe := z' - era * 146097 in
  let yoe := (doe - doe / 1460 + doe / 36524 - doe / 146096) / 365 in
  let doy := doe - (365 * yoe + yoe / 4 - yoe / 100) in
  let mp := (5 * doy + 2) / 153 in
  let d := doy - (153 * mp + 2) / 5 + 1 in
  let m := if mp <? 10 then mp + 3 else mp - 9 in
  let y := yoe + era * 400 in
  (if m <=? 2 then y + 1 else y, m, d).

Definition parse (s : string) : option Z :=
  match list_ascii_of_string s with
  | [y1; y2; y3; y4; dash1; m1; m2; dash2; d1; d2] =>
      if andb (Ascii.eqb dash1 "-") (Ascii.eqb dash2 "-") then
        match number [y1; y2; y3; y4], number [m1; m2], number [d1; d2] with
        | Some y, Some m, Some d =>
            if andb (andb (1 <=? m) (m <=? 12)) (andb (1 <=? d) (d <=? 31))
            then Some (daysFromCivil y m d) else None
        | _, _, _ => None
        end
      else None
  | _ => None
  end.

Definition pad (width : nat) (z : Z) : string :=
  let s := showZ z in
  string_of_list_ascii (repeat "0"%char (width - String.length s)) ++ s.

Definition format (date : option Z) : string :=
  match date with
  | Some z =>
      let '(y, m, d) := civilFromDays z in
      pad 4 y ++ "-" ++ pad 2 m ++ "-" ++ pad 2 d
  | None => "Invalid Date"
  end.

Definition between (a b : string) : Z :=
  match parse a, parse b with
  | Some x, Some y => Z.abs (y - x)
  | _, _ => 0
  end.
End Calendar.

(** Modelled from the spec: the calendar above, as the implementation of
    the [dateUtils] interface that the worked examples run on. *)
#[export] Instance calendarDates : DateUtils := {|
  JsDate := option Z;
  newDate := Calendar.parse;
  addDays := fun date days => option_map (fun z => z + days) date;
  formatDate := Calendar.format;
  daysBetween := Calendar.between
|}.

(** ** The specification's wording, to compare the code with *)

Module Ledger.
(** The yield ledger as the specification words it (section 4.2):
    [totalAborted], [totalHarvested] and [remaining = max(0, ...)]. *)

Definition sumOver {A : Type} (f : A -> Z) (xs : list A) : Z :=
  fold_right (fun x acc => f x + acc) 0 xs.

Definition totalAborted (b : BloomEntry.t) (abortions : list AbortionEntry.t) : Z :=
  sumOver AbortionEntry.abortedCount
    (filter (fun a => String.eqb (AbortionEntry.bloomEntryId a) (BloomEntry.id b))
            abortions).

Definition totalHarvested (b : BloomEntry.t) (harvests : list HarvestEntry.t) : Z :=
  sumOver HarvestEntry.harvestedCount
    (filter (fun h => String.eqb (HarvestEntry.bloomEntryId h) (BloomEntry.id b))
            harvests).

(** [count - totalAborted - totalHarvested], before any clamping. *)
Definition difference (b : BloomEntry.t)
    (abortions : list AbortionEntry.t) (harvests : list HarvestEntry.t) : Z :=
  BloomEntry.count b - totalAborted b abortions - totalHarvested b harvests.

Definition remaining (b : BloomEntry.t)
    (abortions : list AbortionEntry.t) (harvests : list HarvestEntry.t) : Z :=
  Z.max 0 (difference b abortions harvests).

(** Section 4.5: the sum of [remaining] over all blooms. *)
Definition totalRemaining (blooms : list BloomEntry.t)
    (abortions : list AbortionEntry.t) (harvests : list HarvestEntry.t) : Z :=
  sumOver (fun b => remaining b abortions harvests) blooms.

(** Section 4.3: [expectedDate = bloomDate + maturityPeriodDays]. *)
Definition expectedDate `{DateUtils} (b : BloomEntry.t) : string :=
  formatDate (addDays (newDate (BloomEntry.date b)) (BloomEntry.maturityPeriodDays b)).

(** "count of blooms where ..." *)
Definition countWhere {A : Type} (p : A -> bool) (xs : list A) : Z :=
  fold_right (fun x n => if p x then 1 + n else n) 0 xs.

(** Section 4.3's ordering policy between an earlier forecast [a] and a
    later one [b]: ready-today entries first, otherwise ascending by the
    signed number of days. *)
Definition inPolicyOrder (a b : HarvestForecast.t) : Prop :=
  (HarvestForecast.isReadyToday a = true /\ HarvestForecast.isReadyToday b = false)
  \/ (HarvestForecast.isReadyToday a = HarvestForecast.isReadyToday b
      /\ HarvestForecast.daysUntilHarvest a <= HarvestForecast.daysUntilHarvest b).
End Ledger.

Module Groups.
(** Section 4.4 in the specification's words: a group is a key (a
    location, a variety) that some bloom carries; its total is the sum of
    the counts of its blooms; its aborted total is the sum over the
    abortions whose [bloomEntryId] resolves to a bloom of the group. *)
Section ByKey.
Variable keyOf : BloomEntry.t -> string.

Definition isGroup (g : string) (blooms : list BloomEntry.t) : bool :=
  existsb (fun b => String.eqb (keyOf b) g) blooms.

Definition totalBloomed (g : string) (blooms : list BloomEntry.t) : Z :=
  Ledger.sumOver BloomEntry.count
    (filter (fun b => String.eqb (keyOf b) g) blooms).

(** [bloomEntryId -> bloom]: the first bloom with that identifier. *)
Definition resolve (blooms : list BloomEntry.t) (a : AbortionEntry.t)
    : option BloomEntry.t :=
  find (fun b => String.eqb (BloomEntry.id b) (AbortionEntry.bloomEntryId a))
       blooms.

Definition joins (g : string) (blooms : list BloomEntry.t)
    (a : AbortionEntry.t) : bool :=
  match resolve blooms a with
  | Some b => String.eqb (keyOf b) g
  | None => false
  end.

Definition totalAborted (g : string) (blooms : list BloomEntry.t)
    (abortions : list AbortionEntry.t) : Z :=
  Ledger.sumOver AbortionEntry.abortedCount (filter (joins g blooms) abortions).

Definition stats (g : string) (blooms : list BloomEntry.t)
    (abortions : list AbortionEntry.t) : Stats.t :=
  Stats.mk (totalBloomed g blooms) (totalAborted g blooms abortions).
End ByKey.

Definition varietyKey (b : BloomEntry.t) : string :=
  varietyName (BloomEntry.variety b).
End Groups.

(** ** Checks used in the proofs *)

(** No text occurs twice in the list. *)
Fixpoint distinctb (l : list string) : bool :=
  match l with
  | [] => true
  | x :: l' => andb (negb (existsb (String.eqb x) l')) (distinctb l')
  end.

(** [stats.has(g)] *)
Definition hasKey (g : string) (m : Analytics.StatsMap) : bool :=
  match Analytics.mapGet g m with Some _ => true | None => false end.

(** Sample entries used by the worked examples. *)
Module Sample.
Definition bloom (id : string) (count : Z) : BloomEntry.t :=
  BloomEntry.mk id "2024-01-01" "N11A" Red count 26 None None
    "2024-01-01T08:00:00.000Z".

Definition abortion (bloomId : string) (n : Z) : AbortionEntry.t :=
  AbortionEntry.mk "1704441600000" "2024-01-05" bloomId n None None
    "2024-01-05T08:00:00.000Z".

Definition harvest (bloomId : string) (n : Z) : HarvestEntry.t :=
  HarvestEntry.mk "1706342400000" "2024-01-27" bloomId n None None
    "2024-01-27T08:00:00.000Z".
End Sample.

(** ** utils/storage.ts *)

Module Storage.
(** AsyncStorage keeps one text per key. [Text v] is the text
    [JSON.stringify(v)], which [JSON.parse] reads back as [v]; [Unparsable]
    is a text [JSON.parse] throws on; [Absent] is a key without a value
    ([getItem] resolves to [null]). These are the texts this module writes
    or can fail on while reading. A text that parses to something else than
    the value the key is for ([null], a number, an object under an entry
    key) is written by no code path and is outside this type: there a
    getter returns the foreign value and a saver's spread throws although
    the write would work. *)
Inductive Item (A : Type) : Type :=
| Absent
| Text (v : A)
| Unparsable.
Arguments Absent {A}.
Arguments Text {A} v.
Arguments Unparsable {A}.

Record AppSettings := {
  defaultVariety : Variety;
  maturityPeriodDays : Z;
  lastSyncDate : option string;
  enableNotifications : bool
}.

(** A settings object as [JSON.parse] returns it: any field may be
    missing. *)
Record StoredSettings := {
  storedDefaultVariety : option Variety;
  storedMaturityPeriodDays : option Z;
  storedLastSyncDate : option string;
  storedEnableNotifications : option bool
}.

Definition defaultSettings : AppSettings :=
  {| defaultVariety := Red;
     maturityPeriodDays := 26;
     lastSyncDate := None;
     enableNotifications := true |}.

(** The four keys [bloom_entries], [abortion_entries], [harvest_entries]
    and [app_settings]. *)
Record Store := {
  bloom_entries : Item (list BloomEntry.t);
  abortion_entries : Item (list AbortionEntry.t);
  harvest_entries : Item (list HarvestEntry.t);
  app_settings : Item StoredSettings
}.

(** [try { data = await getItem(key); return data ? JSON.parse(data) : [] }
    catch { return [] }]; [ok] tells whether [getItem] resolves. *)
Definition readEntries {A : Type} (ok : bool) (item : Item (list A)) : list A :=
  if ok then
    match item with
    | Text entries => entries
    | Absent => []
    | Unparsable => []
    end
  else [].

Definition getBloomEntries (ok : bool) (s : Store) : list BloomEntry.t :=
  readEntries ok (bloom_entries s).

Definition getAbortionEntries (ok : bool) (s : Store) : list AbortionEntry.t :=
  readEntries ok (abortion_entries s).

Definition getHarvestEntries (ok : bool) (s : Store) : list HarvestEntry.t :=
  readEntries ok (harvest_entries s).

(** The savers: [readOk] and [writeOk] tell whether [getItem] and
    [setItem] resolve; [None] is the rethrown error. *)
Definition saveBloomEntry (readOk writeOk : bool) (entry : BloomEntry.t)
    (s : Store) : option Store :=
  let existingEntries := getBloomEntries readOk s in
  let updatedEntries := (existingEntries ++ [entry])%list in
  if writeOk then
    Some {| bloom_entries := Text updatedEntries;
            abortion_entries := abortion_entries s;
            harvest_entries := harvest_entries s;
            app_settings := app_settings s |}
  else None.

Definition updateBloomEntry (readOk writeOk : bool) (updatedEntry : BloomEntry.t)
    (s : Store) : option Store :=
  let entries := getBloomEntries readOk s in
  let updatedEntries :=
    map (fun entry =>
           if String.eqb (BloomEntry.id entry) (BloomEntry.id updatedEntry)
           then updatedEntry else entry)
        entries in
  if writeOk then
    Some {| bloom_entries := Text updatedEntries;
            abortion_entries := abortion_entries s;
            harvest_entries := harvest_entries s;
            app_settings := app_settings s |}
  else None.

Definition saveAbortionEntry (readOk writeOk : bool) (entry : AbortionEntry.t)
    (s : Store) : option Store :=
  let existingEntries := getAbortionEntries readOk s in
  let updatedEntries := (existingEntries ++ [entry])%list in
  if writeOk then
    Some {| bloom_entries := bloom_entries s;
            abortion_entries := Text updatedEntries;
            harvest_entries := harvest_entries s;
            app_settings := app_settings s |}
  else None.

Definition saveHarvestEntry (readOk writeOk : bool) (entry : HarvestEntry.t)
    (s : Store) : option Store :=
  let existingEntries := getHarvestEntries readOk s in
  let updatedEntries := (existingEntries ++ [entry])%list in
  if writeOk then
    Some {| bloom_entries := bloom_entries s;
            abortion_entries := abortion_entries s;
            harvest_entries := Text updatedEntries;
            app_settings := app_settings s |}
  else None.

(** [JSON.stringify(settings)]: an undefined [lastSyncDate] is left out. *)
Definition stringifySettings (settings : AppSettings) : StoredSettings :=
  {| storedDefaultVariety := Some (defaultVariety settings);
     storedMaturityPeriodDays := Some (maturityPeriodDays settings);
     storedLastSyncDate := lastSyncDate settings;
     storedEnableNotifications := Some (enableNotifications settings) |}.

Definition saveSettings (writeOk : bool) (settings : AppSettings) (s : Store)
    : option Store :=
  if writeOk then
    Some {| bloom_entries := bloom_entries s;
            abortion_entries := abortion_entries s;
            harvest_entries := harvest_entries s;
            app_settings := Text (stringifySettings settings) |}
  else None.

(** [{ ...defaultSettings, ...parsed }] *)
Definition overDefaults (parsed : StoredSettings) : AppSettings :=
  {| defaultVariety :=
       match storedDefaultVariety parsed with
       | Some v => v
       | None => defaultVariety defaultSettings
       end;
     maturityPeriodDays :=
       match storedMaturityPeriodDays parsed with
       | Some d => d
       | None => maturityPeriodDays defaultSettings
       end;
     lastSyncDate :=
       match storedLastSyncDate parsed with
       | Some d => Some d
       | None => lastSyncDate defaultSettings
       end;
     enableNotifications :=
       match storedEnableNotifications parsed with
       | Some b => b
       | None => enableNotifications defaultSettings
       end |}.

Definition getSettings (ok : bool) (s : Store) : AppSettings :=
  if ok then
    match app_settings s with
    | Text parsed => overDefaults parsed
    | Absent => defaultSettings
    | Unparsable => defaultSettings
    end
  else defaultSettings.

(** [multiRemove] of the three entry keys; [None] is the rethrown error. *)
Definition clearAllData (ok : bool) (s : Store) : option Store :=
  if ok then
    Some {| bloom_entries := Absent;
            abortion_entries := Absent;
            harvest_entries := Absent;
            app_settings := app_settings s |}
  else None.
End Storage.

(** ** app/(tabs)/bloom.tsx *)

Module Bloom.
Record FormState := {
  date : string;
  locationType : LocationType;
  location : string;
  variety : Variety;
  count : string;
  maturityPeriodDays : string;
  notes : string;
  imageUri : string
}.

(** [const locations = getLocationsByType(locationType)] *)
Definition locations (st : FormState) : list FarmLocation.t :=
  FarmLocations.getLocationsByType (locationType st).

(** [loadDefaultSettings], given what [getSettings] resolved to. *)
Definition loadDefaultSettings (settings : Storage.AppSettings) (st : FormState)
    : FormState :=
  {| date := date st;
     locationType := locationType st;
     location := location st;
     variety := Storage.defaultVariety settings;
     count := count st;
     maturityPeriodDays := showZ (Storage.maturityPeriodDays settings);
     notes := notes st;
     imageUri := imageUri st |}.

Definition handleSave (st : FormState) (now nowIso : string)
    : SaveOutcome BloomEntry.t :=
  if String.eqb (location st) "" then
    Alerted "Validation Error" "Please select a location"
  else
    match parseInt (count st) with
    | None => Alerted "Validation Error" "Please enter a valid count"
    | Some countNum =>
        if countNum <=? 0
        then Alerted "Validation Error" "Please enter a valid count"
        else
          match parseInt (maturityPeriodDays st) with
          | None =>
              Alerted "Validation Error" "Please enter a valid maturity period"
          | Some maturityDays =>
              if maturityDays <=? 0
              then Alerted "Validation Error"
                     "Please enter a valid maturity period"
              else Persist
                     {| BloomEntry.id := now;
                        BloomEntry.date := date st;
                        BloomEntry.location := location st;
                        BloomEntry.variety := variety st;
                        BloomEntry.count := countNum;
                        BloomEntry.maturityPeriodDays := maturityDays;
                        BloomEntry.imageUri := orUndefined (imageUri st);
                        BloomEntry.notes := orUndefined (notes st);
                        BloomEntry.createdAt := nowIso |}
          end
    end.
End Bloom.

(** ** The settings screen (its file name is not known)

    The maturity field's [onChangeText]:
    [const days = parseInt(value) || 26]. *)

Module SettingsScreen.
Definition onChangeMaturity (value : string) (settings : Storage.AppSettings)
    : Storage.AppSettings :=
  let days :=
    match parseInt value with
    | Some n => if n =? 0 then 26 else n
    | None => 26
    end in
  {| Storage.defaultVariety := Storage.defaultVariety settings;
     Storage.maturityPeriodDays := days;
     Storage.lastSyncDate := Storage.lastSyncDate settings;
     Storage.enableNotifications := Storage.enableNotifications settings |}.
End SettingsScreen.

(** ** The submit handlers with the storage layer behind them

    After validation a handler awaits the saver; it then shows the success
    alert, or, when the saver throws, the error alert. The result is the
    alert shown and the store left behind. *)

Module Submit.
Definition bloom (st : Bloom.FormState) (now nowIso : string)
    (readOk writeOk : bool) (s : Storage.Store) : string * string * Storage.Store :=
  match Bloom.handleSave st now nowIso with
  | Alerted title message => (title, message, s)
  | Persist entry =>
      match Storage.saveBloomEntry readOk writeOk entry s with
      | Some s' => ("Success", "Bloom entry saved successfully", s')
      | None => ("Error", "Failed to save bloom entry", s)
      end
  end.

Definition abortion (st : Abortion.FormState) (now nowIso : string)
    (readOk writeOk : bool) (s : Storage.Store) : string * string * Storage.Store :=
  match Abortion.handleSave st now nowIso with
  | Alerted title message => (title, message, s)
  | Persist entry =>
      match Storage.saveAbortionEntry readOk writeOk entry s with
      | Some s' => ("Success", "Abortion entry saved successfully", s')
      | None => ("Error", "Failed to save abortion entry", s)
      end
  end.

Definition harvest (st : Harvest.FormState) (now nowIso : string)
    (readOk writeOk : bool) (s : Storage.Store) : string * string * Storage.Store :=
  match Harvest.handleSaveHarvest st now nowIso with
  | Alerted title message => (title, message, s)
  | Persist entry =>
      match Storage.saveHarvestEntry readOk writeOk entry s with
      | Some s' => ("Success", "Harvest recorded successfully", s')
      | None => ("Error", "Failed to save harvest entry", s)
      end
  end.
End Submit.

(** ** app/(tabs)/harvest.tsx, the screen around the forecaster *)

Module HarvestScreen.
(** [handleSelectBloom]: the form opens ([showHarvestForm], the second
    component) on the bloom, its count preset to the remaining count of the
    bloom's forecast when there is one. *)
Definition handleSelectBloom (bloom : BloomEntry.t) (st : Harvest.FormState)
    : Harvest.FormState * bool :=
  let forecast :=
    find (fun f => String.eqb (HarvestForecast.id f) (BloomEntry.id bloom))
         (Harvest.harvestForecasts st) in
  ({| Harvest.harvestForecasts := Harvest.harvestForecasts st;
      Harvest.selectedBloom := Some bloom;
      Harvest.harvestDate := Harvest.harvestDate st;
      Harvest.harvestedCount :=
        match forecast with
        | Some f => showZ (HarvestForecast.remainingCount f)
        | None => Harvest.harvestedCount st
        end;
      Harvest.notes := Harvest.notes st;
      Harvest.imageUri := Harvest.imageUri st |},
   true).

(** The three lists [readyToday], [upcoming] and [overdue] the component
    computes from [harvestForecasts] (lines 230 to 232). *)
Definition readyToday (harvestForecasts : list HarvestForecast.t) :=
  filter (fun f => HarvestForecast.isReadyToday f) harvestForecasts.

Definition upcoming (harvestForecasts : list HarvestForecast.t) :=
  filter (fun f => 0 <? HarvestForecast.daysUntilHarvest f) harvestForecasts.

Definition overdue (harvestForecasts : list HarvestForecast.t) :=
  filter (fun f => HarvestForecast.daysUntilHarvest f <? 0) harvestForecasts.

(** The cards render [readyToday] and [overdue] whole, and of [upcoming]
    the rows [upcoming.slice(0, 10)] (line 375). *)
Definition upcomingShown (harvestForecasts : list HarvestForecast.t) :=
  slice0 10 (upcoming harvestForecasts).
End HarvestScreen.

(** ** app/(tabs)/history.tsx *)

Module History.
(** [{ type: 'bloom', data }] or [{ type: 'abortion', data, relatedBloom }] *)
Inductive HistoryEntry :=
| BloomItem (data : BloomEntry.t)
| AbortionItem (data : AbortionEntry.t) (relatedBloom : option BloomEntry.t).

Definition loadHistoryData (bloomEntries : list BloomEntry.t)
    (abortionEntries : list AbortionEntry.t) : list HistoryEntry :=
  (map BloomItem bloomEntries
   ++ map (fun abortion =>
             let relatedBloom :=
               find (fun bloom =>
                       String.eqb (BloomEntry.id bloom)
                                  (AbortionEntry.bloomEntryId abortion))
                    bloomEntries in
             AbortionItem abortion relatedBloom)
          abortionEntries)%list.
End History.

(** ** app/(tabs)/analytics.tsx, the harvest chart *)

Module Chart.
(** [s.split(',')[0]] *)
Fixpoint beforeComma (s : string) : string :=
  match s with
  | EmptyString => EmptyString
  | String c s' => if Ascii.eqb c "," then EmptyString else String c (beforeComma s')
  end.

Section WithDates.
Context `{DateUtils}.
(** [formatDisplayDate] of [dateUtils], and [new Date()]. *)
Variable formatDisplayDate : string -> string.
Variable now : JsDate.

(** The date of bar [i]. *)
Definition targetDate (i : nat) : string :=
  formatDate (addDays now (Z.of_nat i)).

(** The sum one bar shows. *)
Definition expectedHarvests (targetDate : string)
    (bloomEntries : list BloomEntry.t)
    (abortionEntries : list AbortionEntry.t) : Z :=
  fold_left
    (fun sum bloom =>
       let totalAborted :=
         fold_left (fun abortSum abortion =>
                      abortSum + AbortionEntry.abortedCount abortion)
           (filter (fun abortion =>
                      String.eqb (AbortionEntry.bloomEntryId abortion)
                                 (BloomEntry.id bloom))
                   abortionEntries) 0 in
       sum + (BloomEntry.count bloom - totalAborted))
    (filter (fun bloom =>
               let harvestDate :=
                 formatDate (addDays (newDate (BloomEntry.date bloom))
                                     (BloomEntry.maturityPeriodDays bloom)) in
               String.eqb harvestDate targetDate)
            bloomEntries)
    0.

(** The loop [for (let i = 0; i < days; i++)] with
    [days = parseInt(timeRange)]; it does not run when [days] is [NaN]. *)
Definition harvestForecast (timeRange : string)
    (bloomEntries : list BloomEntry.t)
    (abortionEntries : list AbortionEntry.t) : list ChartData.t :=
  match parseInt timeRange with
  | Some days =>
      map (fun i =>
             {| ChartData.x := beforeComma (formatDisplayDate (targetDate i));
                ChartData.y :=
                  inject_Z (expectedHarvests (targetDate i)
                              bloomEntries abortionEntries) |})
          (seq 0 (Z.to_nat days))
  | None => []
  end.
End WithDates.
End Chart.

(** ** app/(tabs)/index.tsx, the loader *)

Module DashboardStats.
(** [DashboardStats] of [types/farm.ts]. The state of [HomePage] starts
    from an object without [readyToHarvestToday], so that field is
    [undefined] ([None]) until a load sets it. *)
Record t := mk {
  todayBlooms : Z;
  todayAbortions : Z;
  upcomingHarvests : Z;
  totalActiveBlooms : Z;
  readyToHarvestToday : option Z
}.
End DashboardStats.

Module DashboardPage.
(** What [index.tsx] imports from [@/utils/storage] (line 8). *)
Definition storageImports : list string :=
  ["getBloomEntries"; "getAbortionEntries"; "getSettings"].

(** Whether a call of [name] finds a binding; if not, evaluating the call
    throws a ReferenceError. *)
Definition bound (name : string) : bool :=
  existsb (String.eqb name) storageImports.

(** [{ bloom, harvestDate, remainingCount }] *)
Record UpcomingItem := {
  bloom : BloomEntry.t;
  harvestDate : string;
  remainingCount : Z
}.

(** The state of [HomePage] that the loader writes. *)
Record PageState := {
  stats : DashboardStats.t;
  upcomingHarvests : list UpcomingItem;
  lastSync : string
}.

Definition initialState : PageState :=
  {| stats := DashboardStats.mk 0 0 0 0 None;
     upcomingHarvests := [];
     lastSync := "Never" |}.

Section WithDates.
Context `{DateUtils}.
(** [Date.prototype.getTime], by which two dates compare. *)
Variable getTime : JsDate -> Z.

(** The list [upcoming] of the [try] block; [now] is [new Date()]. *)
Definition upcoming (now : JsDate) (bloomEntries : list BloomEntry.t)
    (abortionEntries : list AbortionEntry.t) : list UpcomingItem :=
  sort (fun a b =>
          getTime (newDate (harvestDate a)) ?= getTime (newDate (harvestDate b)))
    (filter (fun item =>
               let harvestDate := newDate (harvestDate item) in
               let nextWeek := addDays now 7 in
               andb (andb (getTime harvestDate <=? getTime nextWeek)
                          (getTime now <=? getTime harvestDate))
                    (0 <? remainingCount item))
       (map (fun bloom =>
               let harvestDate :=
                 addDays (newDate (BloomEntry.date bloom))
                         (BloomEntry.maturityPeriodDays bloom) in
               let totalAborted :=
                 reduceSum AbortionEntry.abortedCount
                   (filter (fun abortion =>
                              String.eqb (AbortionEntry.bloomEntryId abortion)
                                         (BloomEntry.id bloom))
                           abortionEntries) in
               {| bloom := bloom;
                  harvestDate := formatDate harvestDate;
                  remainingCount := BloomEntry.count bloom - totalAborted |})
            bloomEntries)).

(** [loadDashboardData]: the state it leaves. The argument of
    [Promise.all] calls [getBloomEntries], [getAbortionEntries],
    [getHarvestEntries] and [getSettings] in turn; a call of a name without
    a binding throws, the [catch] logs the error, and the state stays as it
    was. Otherwise the third result, the harvest entries, is bound to the
    name [settings], the counters are computed from the first two, and
    [settings.lastSyncDate], read off an array, is undefined, which leaves
    [lastSync] as it was. *)
Definition loadDashboardData (st : PageState) (today : string) (now : JsDate)
    (bloomEntries : list BloomEntry.t)
    (abortionEntries : list AbortionEntry.t) : PageState :=
  if forallb bound
       ["getBloomEntries"; "getAbortionEntries"; "getHarvestEntries";
        "getSettings"]
  then
    let upcoming := upcoming now bloomEntries abortionEntries in
    {| stats :=
         {| DashboardStats.todayBlooms :=
              Dashboard.todayBlooms today bloomEntries;
            DashboardStats.todayAbortions :=
              Dashboard.todayAbortions today abortionEntries;
            DashboardStats.upcomingHarvests := Dashboard.jsLength upcoming;
            DashboardStats.totalActiveBlooms :=
              Dashboard.totalActiveBlooms bloomEntries abortionEntries;
            DashboardStats.readyToHarvestToday :=
              Some (Dashboard.readyToHarvestToday today bloomEntries) |};
       upcomingHarvests := slice0 5 upcoming;
       lastSync := lastSync st |}
  else st.
End WithDates.
End DashboardPage.

(** ** Reading decimal digits (used in the proofs) *)

(** The number read from the digits [d] after the number [acc]. *)
Fixpoint decimalValue (d : Decimal.uint) (acc : Z) : Z :=
  match d with
  | Decimal.Nil => acc
  | Decimal.D0 d => decimalValue d (acc * 10 + 0)
  | Decimal.D1 d => decimalValue d (acc * 10 + 1)
  | Decimal.D2 d => decimalValue d (acc * 10 + 2)
  | Decimal.D3 d => decimalValue d (acc * 10 + 3)
  | Decimal.D4 d => decimalValue d (acc * 10 + 4)
  | Decimal.D5 d => decimalValue d (acc * 10 + 5)
  | Decimal.D6 d => decimalValue d (acc * 10 + 6)
  | Decimal.D7 d => decimalValue d (acc * 10 + 7)
  | Decimal.D8 d => decimalValue d (acc * 10 + 8)
  | Decimal.D9 d => decimalValue d (acc * 10 + 9)
  end.

(* ================================================================== *)
(** * Part II. Properties *)
(* ================================================================== *)

(** ** Sums *)

Lemma fold_left_sum_acc {A : Type} (f : A -> Z) (xs : list A) (a : Z) :
  fold_left (fun sum x => sum + f x) xs a = a + Ledger.sumOver f xs.
Proof.
  revert a; induction xs as [|x xs IH]; intros a; simpl.
  - lia.
  - rewrite IH. lia.
Qed.

Lemma reduceSum_sumOver {A : Type} (f : A -> Z) (xs : list A) :
  reduceSum f xs = Ledger.sumOver f xs.
Proof. unfold reduceSum. rewrite fold_left_sum_acc. lia. Qed.

Lemma sumOver_ext_in {A : Type} (f g : A -> Z) (xs : list A) :
  (forall x, In x xs -> f x = g x) -> Ledger.sumOver f xs = Ledger.sumOver g xs.
Proof.
  induction xs as [|x xs IH]; intros E; simpl.
  - reflexivity.
  - rewrite (E x (or_introl eq_refl)), IH; auto.
    intros y Hy. apply E. now right.
Qed.

Lemma sumOver_nonneg {A : Type} (f : A -> Z) (xs : list A) :
  (forall x, In x xs -> 0 <= f x) -> 0 <= Ledger.sumOver f xs.
Proof.
  induction xs as [|x xs IH]; intros E; simpl.
  - lia.
  - assert (0 <= f x) by (apply E; now left).
    assert (0 <= Ledger.sumOver f xs) by (apply IH; intros; apply E; now right).
    lia.
Qed.

(** ** Stable insertion sort *)

Section SortFacts.
Context {A : Type} (cmp : A -> A -> comparison).

Lemma insertStable_perm (x : A) (l : list A) :
  Permutation (insertStable cmp x l) (x :: l).
Proof.
  induction l as [|y l IH]; simpl.
  - reflexivity.
  - destruct (cmp x y); try reflexivity.
    rewrite IH. apply perm_swap.
Qed.

Lemma sort_perm (l : list A) : Permutation (sort cmp l) l.
Proof.
  induction l as [|x l IH]; simpl.
  - reflexivity.
  - rewrite insertStable_perm. now constructor.
Qed.

Lemma sort_In (x : A) (l : list A) : In x (sort cmp l) <-> In x l.
Proof.
  split; apply Permutation_in; [ | symmetry ]; apply sort_perm.
Qed.

(** The comparator orders: no two elements are each after the other, and
    "not after" is transitive. *)
Hypothesis cmp_total : forall a b, cmp a b = Gt -> cmp b a <> Gt.
Hypothesis cmp_trans :
  forall a b c, cmp a b <> Gt -> cmp b c <> Gt -> cmp a c <> Gt.

Lemma insertStable_sorted (x : A) (l : list A) :
  StronglySorted (fun a b => cmp a b <> Gt) l ->
  StronglySorted (fun a b => cmp a b <> Gt) (insertStable cmp x l).
Proof.
  induction l as [|y l IH]; intros S; simpl.
  - repeat constructor.
  - inversion S as [|? ? Sl Fy]; subst.
    destruct (cmp x y) eqn:E.
    + constructor; [assumption|].
      constructor; [cbv beta; congruence|].
      eapply Forall_impl; [|exact Fy].
      intros z Hz. apply (cmp_trans x y z); [congruence|exact Hz].
    + constructor; [assumption|].
      constructor; [cbv beta; congruence|].
      eapply Forall_impl; [|exact Fy].
      intros z Hz. apply (cmp_trans x y z); [congruence|exact Hz].
    + constructor; [now apply IH|].
      apply Forall_forall. intros z Hz.
      apply (Permutation_in _ (insertStable_perm x l)) in Hz.
      destruct Hz as [<-|Hz].
      * now apply cmp_total.
      * rewrite Forall_forall in Fy. now apply Fy.
Qed.

Lemma sort_sorted (l : list A) :
  StronglySorted (fun a b => cmp a b <> Gt) (sort cmp l).
Proof.
  induction l as [|x l IH]; simpl.
  - constructor.
  - now apply insertStable_sorted.
Qed.
End SortFacts.

Lemma StronglySorted_impl {A : Type} (R S : A -> A -> Prop) (l : list A) :
  (forall a b, R a b -> S a b) -> StronglySorted R l -> StronglySorted S l.
Proof.
  intros RS. induction 1 as [|a l Sl IH Fa]; constructor; auto.
  eapply Forall_impl; [|exact Fa]. auto.
Qed.

(** ** Location catalog *)

Lemma distinctb_NoDup (l : list string) : distinctb l = true -> NoDup l.
Proof.
  induction l as [|x l IH]; simpl; intros E.
  - constructor.
  - apply andb_true_iff in E as [Hx Hl].
    constructor; [|now apply IH].
    intros Hin. apply negb_true_iff in Hx.
    assert (existsb (String.eqb x) l = true) as C
      by (apply existsb_exists; exists x; split; [exact Hin|apply String.eqb_refl]).
    congruence.
Qed.

(** C10. The catalog is a closed value (so every call yields the same
    list) of exactly 392 locations: 288 greenhouse poles, 80 trellis
    sections and 24 double-pole positions, in that order, and no two of the
    392 identifiers are equal. *)
Theorem catalog_392_distinct_ids :
  List.length FarmLocations.generateGreenhouseLocations = 288%nat
  /\ List.length FarmLocations.generateTrellisLocations = 80%nat
  /\ List.length FarmLocations.generateDoublePoleLocations = 24%nat
  /\ List.length FarmLocations.getAllFarmLocations = 392%nat
  /\ List.length (FarmLocations.getLocationsByType Greenhouse) = 288%nat
  /\ List.length (FarmLocations.getLocationsByType Trellis) = 80%nat
  /\ List.length (FarmLocations.getLocationsByType DoublePole) = 24%nat
  /\ NoDup (map FarmLocation.id FarmLocations.getAllFarmLocations).
Proof.
  repeat split; try (vm_compute; reflexivity).
  apply distinctb_NoDup. vm_compute. reflexivity.
Qed.

(** ** Yield ledger and harvest forecaster *)

Lemma unique_id_bloom blooms b b' :
  NoDup (map BloomEntry.id blooms) -> In b blooms -> In b' blooms ->
  BloomEntry.id b' = BloomEntry.id b -> b' = b.
Proof.
  intros ND Hb Hb' E. induction blooms as [|c l IH]; [contradiction|].
  simpl in ND. inversion ND as [|? ? Hc ND']; subst.
  destruct Hb as [->|Hb], Hb' as [->|Hb']; auto.
  - exfalso. apply Hc. rewrite <- E. now apply in_map.
  - exfalso. apply Hc. rewrite E. now apply in_map.
Qed.

Lemma find_first {A : Type} (p : A -> bool) (l : list A) :
  (exists x, In x l /\ p x = true) ->
  exists y, find p l = Some y /\ In y l /\ p y = true.
Proof.
  intros [x [Hx Px]]. induction l as [|z l IH]; [contradiction|].
  simpl. destruct (p z) eqn:Pz.
  - exists z. repeat split; auto.
  - destruct Hx as [->|Hx]; [congruence|].
    destruct (IH Hx) as [y [F [Hy Py]]]. exists y. repeat split; auto.
Qed.

Section HarvestFacts.
Context `{DateUtils}.

Lemma forecastOf_remaining today abortions harvests b :
  HarvestForecast.remainingCount (Harvest.forecastOf today abortions harvests b)
  = Ledger.difference b abortions harvests.
Proof.
  unfold Harvest.forecastOf, Ledger.difference, Ledger.totalAborted,
    Ledger.totalHarvested; simpl.
  now rewrite !reduceSum_sumOver.
Qed.

Lemma forecastOf_bloomEntry today abortions harvests b :
  HarvestForecast.bloomEntry (Harvest.forecastOf today abortions harvests b) = b.
Proof. reflexivity. Qed.

(** A forecast is listed exactly when it is the forecast of a loaded bloom
    whose difference is positive. *)
Lemma loadHarvestData_In today blooms abortions harvests f :
  In f (Harvest.loadHarvestData today blooms abortions harvests)
  <-> exists b, In b blooms
                /\ f = Harvest.forecastOf today abortions harvests b
                /\ 0 < Ledger.difference b abortions harvests.
Proof.
  unfold Harvest.loadHarvestData.
  rewrite sort_In, filter_In, in_map_iff.
  split.
  - intros [[b [E Hb]] P]. exists b. subst f.
    rewrite forecastOf_remaining in P. apply Z.ltb_lt in P. auto.
  - intros [b [Hb [E P]]]. subst f. split.
    + now exists b.
    + rewrite forecastOf_remaining. now apply Z.ltb_lt.
Qed.

(** C1 (amended). The remaining count the forecaster computes for a bloom
    is the plain difference count - aborted - harvested, with no clamp at
    zero; for every forecast that is listed, the difference is positive
    and so equals the clamped [remaining] of the ledger. *)
Theorem remaining_is_unclamped_difference :
  forall today blooms abortions harvests,
    (forall b,
        HarvestForecast.remainingCount
          (Harvest.forecastOf today abortions harvests b)
        = BloomEntry.count b - Ledger.totalAborted b abortions
          - Ledger.totalHarvested b harvests)
    /\ (forall f,
           In f (Harvest.loadHarvestData today blooms abortions harvests) ->
           0 < HarvestForecast.remainingCount f
           /\ HarvestForecast.remainingCount f
              = Ledger.remaining (HarvestForecast.bloomEntry f) abortions harvests).
Proof.
  intros today blooms abortions harvests. split.
  - intros b. apply forecastOf_remaining.
  - intros f Hf. apply loadHarvestData_In in Hf as [b [_ [-> P]]].
    rewrite forecastOf_bloomEntry, forecastOf_remaining.
    unfold Ledger.remaining. lia.
Qed.

(** C7. A bloom whose remaining count is zero (its difference is zero or
    negative) has no forecast in the forecaster's list; when the loaded
    blooms have distinct identifiers, no listed forecast carries its
    identifier either. *)
Theorem exhausted_bloom_not_forecast :
  forall today blooms abortions harvests b,
    Ledger.remaining b abortions harvests = 0 ->
    (forall f, In f (Harvest.loadHarvestData today blooms abortions harvests) ->
               HarvestForecast.bloomEntry f <> b)
    /\ (In b blooms -> NoDup (map BloomEntry.id blooms) ->
        forall f, In f (Harvest.loadHarvestData today blooms abortions harvests) ->
                  HarvestForecast.id f <> BloomEntry.id b).
Proof.
  intros today blooms abortions harvests b R.
  unfold Ledger.remaining in R.
  split.
  - intros f Hf E. apply loadHarvestData_In in Hf as [b' [_ [-> P]]].
    rewrite forecastOf_bloomEntry in E. subst b'. lia.
  - intros Hb ND f Hf E. apply loadHarvestData_In in Hf as [b' [Hb' [-> P]]].
    simpl in E.
    assert (b' = b) by (now apply (unique_id_bloom blooms)).
    subst b'. lia.
Qed.

Lemma compareForecasts_total a b :
  Harvest.compareForecasts a b = Gt -> Harvest.compareForecasts b a <> Gt.
Proof.
  unfold Harvest.compareForecasts.
  destruct (HarvestForecast.isReadyToday a), (HarvestForecast.isReadyToday b);
    simpl; try congruence.
  - rewrite (Z.compare_antisym (HarvestForecast.daysUntilHarvest a)).
    destruct (_ ?= _); simpl; congruence.
  - rewrite (Z.compare_antisym (HarvestForecast.daysUntilHarvest a)).
    destruct (_ ?= _); simpl; congruence.
Qed.

Lemma compareForecasts_policy a b :
  Harvest.compareForecasts a b <> Gt <-> Ledger.inPolicyOrder a b.
Proof.
  unfold Harvest.compareForecasts, Ledger.inPolicyOrder.
  destruct (HarvestForecast.isReadyToday a), (HarvestForecast.isReadyToday b);
    simpl; try rewrite <- Z.leb_le; try rewrite Z.leb_compare;
    try destruct (_ ?= _); intuition congruence.
Qed.

Lemma compareForecasts_trans a b c :
  Harvest.compareForecasts a b <> Gt -> Harvest.compareForecasts b c <> Gt ->
  Harvest.compareForecasts a c <> Gt.
Proof.
  rewrite !compareForecasts_policy. unfold Ledger.inPolicyOrder.
  destruct (HarvestForecast.isReadyToday a), (HarvestForecast.isReadyToday b),
    (HarvestForecast.isReadyToday c); intuition (try congruence; try lia).
Qed.

(** C6. The forecaster's list is ordered by the policy: of any two listed
    forecasts the earlier one is ready today while the later is not, or
    the two agree on readiness and the earlier has the smaller or equal
    signed number of days; so every ready-today forecast precedes every
    other one. *)
Theorem forecasts_in_policy_order :
  forall today blooms abortions harvests,
    StronglySorted Ledger.inPolicyOrder
      (Harvest.loadHarvestData today blooms abortions harvests).
Proof.
  intros. unfold Harvest.loadHarvestData.
  eapply StronglySorted_impl;
    [|apply sort_sorted; [apply compareForecasts_total|apply compareForecasts_trans]].
  intros a b. apply compareForecasts_policy.
Qed.
End HarvestFacts.

(** Scenario 3 of the specification, on the calendar: a bloom of 10 with 3
    aborted and 7 harvested has nothing remaining and is not forecast. *)
Lemma exhausted_bloom_not_forecast_witness :
  Ledger.remaining (Sample.bloom "b1" 10)
    [Sample.abortion "b1" 3] [Sample.harvest "b1" 7] = 0
  /\ (forall f,
         In f (Harvest.loadHarvestData "2024-01-27" [Sample.bloom "b1" 10]
                 [Sample.abortion "b1" 3] [Sample.harvest "b1" 7]) ->
         HarvestForecast.bloomEntry f <> Sample.bloom "b1" 10).
Proof.
  split.
  - reflexivity.
  - apply (exhausted_bloom_not_forecast (H := calendarDates) "2024-01-27"
             [Sample.bloom "b1" 10] [Sample.abortion "b1" 3]
             [Sample.harvest "b1" 7] (Sample.bloom "b1" 10)).
    reflexivity.
Defined.

(** C1 as stated fails on over-abortion: a bloom of 5 with 7 aborted gets the
    remaining count -2 from the forecaster's computation, where the clamped
    ledger value is 0. *)
Lemma remaining_not_clamped_counterexample :
  HarvestForecast.remainingCount
    (Harvest.forecastOf "2024-01-10" [Sample.abortion "b1" 7] []
       (Sample.bloom "b1" 5)) = -2
  /\ Ledger.remaining (Sample.bloom "b1" 5) [Sample.abortion "b1" 7] [] = 0
  /\ HarvestForecast.remainingCount
       (Harvest.forecastOf "2024-01-10" [Sample.abortion "b1" 7] []
          (Sample.bloom "b1" 5))
     <> Ledger.remaining (Sample.bloom "b1" 5) [Sample.abortion "b1" 7] [].
Proof. repeat split; vm_compute; congruence. Qed.

(** Scenarios 1 and 2 of the specification, on the calendar. *)
Example scenario_1_forecast :
  map (fun f => (HarvestForecast.expectedHarvestDate f,
                 HarvestForecast.remainingCount f,
                 HarvestForecast.isReadyToday f,
                 HarvestForecast.daysUntilHarvest f))
      (Harvest.loadHarvestData "2024-01-20" [Sample.bloom "b1" 10] [] [])
  = [("2024-01-27", 10, false, 7)].
Proof. vm_compute. reflexivity. Qed.

Example scenario_2_forecast :
  map HarvestForecast.remainingCount
      (Harvest.loadHarvestData "2024-01-20" [Sample.bloom "b1" 10]
         [Sample.abortion "b1" 3] [])
  = [7].
Proof. vm_compute. reflexivity. Qed.

(** ** Dashboard counters *)

Section DashboardFacts.
Context `{DateUtils}.

Lemma totalActiveBlooms_sum blooms abortions :
  Dashboard.totalActiveBlooms blooms abortions
  = Ledger.sumOver
      (fun b => BloomEntry.count b - Ledger.totalAborted b abortions) blooms.
Proof.
  unfold Dashboard.totalActiveBlooms.
  rewrite fold_left_sum_acc. simpl.
  apply sumOver_ext_in. intros b _.
  unfold Ledger.totalAborted. now rewrite reduceSum_sumOver.
Qed.

Lemma totalHarvested_unreferenced b harvests :
  (forall h, In h harvests -> HarvestEntry.bloomEntryId h <> BloomEntry.id b) ->
  Ledger.totalHarvested b harvests = 0.
Proof.
  intros N. unfold Ledger.totalHarvested.
  induction harvests as [|h l IH]; simpl; [reflexivity|].
  destruct (String.eqb_spec (HarvestEntry.bloomEntryId h) (BloomEntry.id b)) as [E|_].
  - exfalso. apply (N h); [now left|exact E].
  - apply IH. intros h' Hh'. apply N. now right.
Qed.

(** The [reduce] of the loader, were it reached: over histories in which
    no harvest entry refers to a loaded bloom, it is the sum over all
    blooms of the plain difference count - aborted - harvested, with no
    clamp at zero; it is the sum of the ledger's [remaining] when, in
    addition, no bloom is over-aborted. *)
Theorem totalActiveBlooms_sums_differences :
  forall blooms abortions harvests,
    (forall h b, In h harvests -> In b blooms ->
                 HarvestEntry.bloomEntryId h <> BloomEntry.id b) ->
    Dashboard.totalActiveBlooms blooms abortions
    = Ledger.sumOver (fun b => Ledger.difference b abortions harvests) blooms
    /\ ((forall b, In b blooms ->
                   Ledger.totalAborted b abortions <= BloomEntry.count b) ->
        Dashboard.totalActiveBlooms blooms abortions
        = Ledger.totalRemaining blooms abortions harvests).
Proof.
  intros blooms abortions harvests N.
  assert (forall b, In b blooms ->
            BloomEntry.count b - Ledger.totalAborted b abortions
            = Ledger.difference b abortions harvests) as D.
  { intros b Hb. unfold Ledger.difference.
    rewrite totalHarvested_unreferenced; [lia|].
    intros h Hh. now apply N. }
  rewrite totalActiveBlooms_sum. split.
  - now apply sumOver_ext_in.
  - intros Le. unfold Ledger.totalRemaining. apply sumOver_ext_in.
    intros b Hb. unfold Ledger.remaining. rewrite <- (D b Hb).
    specialize (Le b Hb). lia.
Qed.

Lemma jsLength_filter_countWhere {A : Type} (p : A -> bool) (xs : list A) :
  Dashboard.jsLength (filter p xs) = Ledger.countWhere p xs.
Proof.
  unfold Dashboard.jsLength, Ledger.countWhere.
  induction xs as [|x xs IH]; [reflexivity|].
  cbn [filter fold_right]. destruct (p x).
  - cbn [List.length]. rewrite Nat2Z.inj_succ, IH. lia.
  - exact IH.
Qed.

(** The [filter] of the loader, were it reached: it counts the loaded
    blooms whose expected harvest date is today. Abortions and harvests
    play no part: whatever they are, it is the number of blooms whose
    forecast is flagged ready today before the forecaster drops exhausted
    blooms, and it is at least the number of ready-today forecasts
    listed. *)
Theorem readyToHarvestToday_counts_every_bloom :
  forall today blooms,
    Dashboard.readyToHarvestToday today blooms
    = Ledger.countWhere
        (fun b => String.eqb (Ledger.expectedDate b) today) blooms
    /\ (forall abortions harvests,
           Dashboard.readyToHarvestToday today blooms
           = Dashboard.jsLength
               (filter HarvestForecast.isReadyToday
                  (map (Harvest.forecastOf today abortions harvests) blooms))
           /\ Dashboard.jsLength
                (filter HarvestForecast.isReadyToday
                   (Harvest.loadHarvestData today blooms abortions harvests))
              <= Dashboard.readyToHarvestToday today blooms)
    /\ (forall b,
           Dashboard.readyToHarvestToday today (b :: blooms)
           = (if String.eqb (Ledger.expectedDate b) today then 1 else 0)
             + Dashboard.readyToHarvestToday today blooms).
Proof.
  intros today blooms.
  assert (forall abortions harvests,
            Dashboard.readyToHarvestToday today blooms
            = Dashboard.jsLength
                (filter HarvestForecast.isReadyToday
                   (map (Harvest.forecastOf today abortions harvests) blooms)))
    as Pre.
  { intros abortions harvests. unfold Dashboard.readyToHarvestToday.
    rewrite !jsLength_filter_countWhere.
    induction blooms as [|b l IH]; simpl; [reflexivity|].
    now rewrite IH. }
  split; [|split].
  - unfold Dashboard.readyToHarvestToday. apply jsLength_filter_countWhere.
  - intros abortions harvests. split; [apply Pre|].
    rewrite (Pre abortions harvests).
    unfold Harvest.loadHarvestData, Dashboard.jsLength.
    set (all := map _ blooms).
    set (kept := filter (fun forecast => 0 <? _) all).
    assert (Permutation (filter HarvestForecast.isReadyToday
                           (sort Harvest.compareForecasts kept))
                        (filter HarvestForecast.isReadyToday kept)) as P.
    { generalize (sort_perm Harvest.compareForecasts kept).
      generalize (sort Harvest.compareForecasts kept).
      intros s P. induction P; simpl;
        repeat match goal with
               | |- context [HarvestForecast.isReadyToday ?z] =>
                   destruct (HarvestForecast.isReadyToday z)
               end; eauto using Permutation. }
    rewrite (Permutation_length P).
    apply inj_le. clear P. subst kept. clearbody all.
    induction all as [|f l IH]; [apply Nat.le_refl|].
    cbn [filter].
    destruct (0 <? HarvestForecast.remainingCount f); cbn [filter];
      destruct (HarvestForecast.isReadyToday f); cbn [List.length];
      auto using le_n_S, Nat.le_le_succ_r.
  - intros b. unfold Dashboard.readyToHarvestToday, Dashboard.jsLength,
      Ledger.expectedDate. cbn [filter].
    destruct (String.eqb _ today); cbn [List.length];
      [rewrite Nat2Z.inj_succ; lia|reflexivity].
Qed.
End DashboardFacts.

(** The [reduce] does not clamp: a bloom of 5 with 7 aborted adds -2,
    where the sum of [remaining] is 0. *)
Lemma totalActiveBlooms_not_clamped_counterexample :
  Dashboard.totalActiveBlooms [Sample.bloom "b1" 5] [Sample.abortion "b1" 7] = -2
  /\ Ledger.totalRemaining [Sample.bloom "b1" 5] [Sample.abortion "b1" 7] [] = 0
  /\ Dashboard.totalActiveBlooms [Sample.bloom "b1" 5] [Sample.abortion "b1" 7]
     <> Ledger.totalRemaining [Sample.bloom "b1" 5] [Sample.abortion "b1" 7] [].
Proof. repeat split; vm_compute; congruence. Qed.

Lemma totalActiveBlooms_sums_differences_witness :
  (forall h b,
      In h [Sample.harvest "b9" 2] ->
      In b [Sample.bloom "b1" 10; Sample.bloom "b2" 4] ->
      HarvestEntry.bloomEntryId h <> BloomEntry.id b)
  /\ Dashboard.totalActiveBlooms
    [Sample.bloom "b1" 10; Sample.bloom "b2" 4] [Sample.abortion "b1" 3]
  = Ledger.sumOver
      (fun b => Ledger.difference b [Sample.abortion "b1" 3] [Sample.harvest "b9" 2])
      [Sample.bloom "b1" 10; Sample.bloom "b2" 4].
Proof.
  assert (forall h b,
            In h [Sample.harvest "b9" 2] ->
            In b [Sample.bloom "b1" 10; Sample.bloom "b2" 4] ->
            HarvestEntry.bloomEntryId h <> BloomEntry.id b) as N.
  { intros h b [<-|[]] [<-|[<-|[]]]; vm_compute; congruence. }
  split; [exact N|].
  exact (proj1 (totalActiveBlooms_sums_differences
                  [Sample.bloom "b1" 10; Sample.bloom "b2" 4]
                  [Sample.abortion "b1" 3] [Sample.harvest "b9" 2] N)).
Defined.

(** The dashboard counts a ready-today bloom that the forecaster no longer
    lists (scenario 3 on its harvest date). *)
Example ready_today_counts_exhausted_bloom :
  Dashboard.readyToHarvestToday "2024-01-27" [Sample.bloom "b1" 10] = 1
  /\ Harvest.loadHarvestData "2024-01-27" [Sample.bloom "b1" 10]
       [Sample.abortion "b1" 3] [Sample.harvest "b1" 7] = [].
Proof. split; vm_compute; reflexivity. Qed.

(** ** Abortion analytics *)

Section MapFacts.
Import Analytics.

Lemma mapGet_mapSet k v m g :
  mapGet g (mapSet k v m) = if String.eqb k g then Some v else mapGet g m.
Proof.
  induction m as [|[k' v'] m IH]; simpl.
  - reflexivity.
  - destruct (String.eqb_spec k' k) as [->|N]; simpl.
    + now destruct (String.eqb k g).
    + rewrite IH.
      destruct (String.eqb_spec k g) as [E|_]; [|reflexivity].
      destruct (String.eqb_spec k' g); [congruence|reflexivity].
Qed.

Lemma getOrZero_mapSet k v m g :
  getOrZero g (mapSet k v m) = if String.eqb k g then v else getOrZero g m.
Proof.
  unfold getOrZero. rewrite mapGet_mapSet. now destruct (String.eqb k g).
Qed.

Lemma hasKey_mapSet k v m g :
  hasKey g (mapSet k v m) = orb (String.eqb k g) (hasKey g m).
Proof.
  unfold hasKey. rewrite mapGet_mapSet. now destruct (String.eqb k g).
Qed.

Lemma mapGet_None_keys g m : mapGet g m = None <-> ~ In g (map fst m).
Proof.
  induction m as [|[k v] m IH]; simpl.
  - tauto.
  - destruct (String.eqb_spec k g) as [->|N].
    + split; [discriminate|intros C; exfalso; apply C; now left].
    + rewrite IH. tauto.
Qed.

Lemma mapGet_Some_In g s m : mapGet g m = Some s -> In (g, s) m.
Proof.
  induction m as [|[k v] m IH]; simpl; [discriminate|].
  destruct (String.eqb_spec k g) as [->|N].
  - intros [= ->]. now left.
  - intros E. right. now apply IH.
Qed.

Lemma In_mapGet_Some g s m :
  NoDup (map fst m) -> In (g, s) m -> mapGet g m = Some s.
Proof.
  induction m as [|[k v] m IH]; simpl; [contradiction|].
  intros ND. inversion ND as [|? ? Hk ND']; subst.
  intros [[= -> ->]|Hin].
  - now rewrite String.eqb_refl.
  - destruct (String.eqb_spec k g) as [->|N]; [|now apply IH].
    apply (in_map fst) in Hin. exact (False_ind _ (Hk Hin)).
Qed.

Lemma keys_mapSet k v m :
  map fst (mapSet k v m)
  = if hasKey k m then map fst m else (map fst m ++ [k])%list.
Proof.
  unfold hasKey.
  induction m as [|[k' v'] m IH]; simpl; [reflexivity|].
  destruct (String.eqb_spec k' k) as [->|N]; simpl; [reflexivity|].
  rewrite IH. now destruct (mapGet k m).
Qed.

Lemma mapSet_NoDup k v m : NoDup (map fst m) -> NoDup (map fst (mapSet k v m)).
Proof.
  intros ND. rewrite keys_mapSet. unfold hasKey.
  destruct (mapGet k m) eqn:E; [exact ND|].
  apply mapGet_None_keys in E.
  apply NoDup_app; [exact ND|repeat constructor; simpl; tauto|].
  intros x Hx [<-|[]]. contradiction.
Qed.
End MapFacts.

Section GroupFacts.
Import Analytics.
Variable keyOf : BloomEntry.t -> string.

Lemma mapGet_hasKey g m :
  mapGet g m = if hasKey g m then Some (getOrZero g m) else None.
Proof. unfold hasKey, getOrZero. now destruct (mapGet g m). Qed.

Lemma addBloom_get g m b :
  getOrZero g (addBloom keyOf m b)
  = if String.eqb (keyOf b) g
    then Stats.mk (Stats.total (getOrZero g m) + BloomEntry.count b)
                  (Stats.aborted (getOrZero g m))
    else getOrZero g m.
Proof.
  unfold addBloom. rewrite getOrZero_mapSet.
  destruct (String.eqb_spec (keyOf b) g) as [E|_]; [rewrite E|]; reflexivity.
Qed.

Lemma addBloom_hasKey g m b :
  hasKey g (addBloom keyOf m b) = orb (String.eqb (keyOf b) g) (hasKey g m).
Proof. unfold addBloom. apply hasKey_mapSet. Qed.

Lemma blooms_fold g bs :
  forall m,
    hasKey g (fold_left (addBloom keyOf) bs m)
    = orb (hasKey g m) (Groups.isGroup keyOf g bs)
    /\ getOrZero g (fold_left (addBloom keyOf) bs m)
       = Stats.mk (Stats.total (getOrZero g m) + Groups.totalBloomed keyOf g bs)
                  (Stats.aborted (getOrZero g m))
    /\ (NoDup (map fst m) ->
        NoDup (map fst (fold_left (addBloom keyOf) bs m))).
Proof.
  induction bs as [|b bs IH]; intros m.
  - simpl. rewrite orb_false_r. repeat split; auto.
    unfold Groups.totalBloomed.
    destruct (getOrZero g m) as [t a]; simpl. f_equal. lia.
  - cbn [fold_left]. destruct (IH (addBloom keyOf m b)) as [K [G N]].
    rewrite K, G, addBloom_hasKey, addBloom_get.
    unfold Groups.isGroup, Groups.totalBloomed. cbn [existsb filter].
    repeat split.
    + destruct (String.eqb (keyOf b) g), (hasKey g m); reflexivity.
    + destruct (String.eqb (keyOf b) g); simpl; f_equal; lia.
    + intros ND. apply N. unfold addBloom. now apply mapSet_NoDup.
Qed.

Lemma addAbortion_cases blooms m a :
  addAbortion keyOf blooms m a
  = match Groups.resolve blooms a with
    | Some b =>
        mapSet (keyOf b)
          (Stats.mk (Stats.total (getOrZero (keyOf b) m))
                    (Stats.aborted (getOrZero (keyOf b) m)
                     + AbortionEntry.abortedCount a)) m
    | None => m
    end.
Proof. reflexivity. Qed.

Lemma abortions_fold g blooms abortions :
  forall m,
    (forall b, In b blooms -> hasKey (keyOf b) m = true) ->
    hasKey g (fold_left (addAbortion keyOf blooms) abortions m) = hasKey g m
    /\ getOrZero g (fold_left (addAbortion keyOf blooms) abortions m)
       = Stats.mk (Stats.total (getOrZero g m))
                  (Stats.aborted (getOrZero g m)
                   + Groups.totalAborted keyOf g blooms abortions)
    /\ (NoDup (map fst m) ->
        NoDup (map fst (fold_left (addAbortion keyOf blooms) abortions m))).
Proof.
  induction abortions as [|a l IH]; intros m Keys.
  - simpl. repeat split; auto.
    unfold Groups.totalAborted.
    destruct (getOrZero g m) as [t c]; simpl. f_equal. lia.
  - cbn [fold_left].
    assert (forall b, In b blooms ->
              hasKey (keyOf b) (addAbortion keyOf blooms m a) = true) as Keys'.
    { intros b Hb. rewrite addAbortion_cases.
      destruct (Groups.resolve blooms a); [|now apply Keys].
      rewrite hasKey_mapSet, (Keys b Hb). apply orb_true_r. }
    destruct (IH _ Keys') as [K [G N]]. rewrite K, G. clear K G IH.
    unfold Groups.totalAborted, Groups.joins. cbn [filter].
    rewrite addAbortion_cases in N |- *. revert N.
    destruct (Groups.resolve blooms a) as [b|] eqn:R; intros N.
    + apply find_some in R as [Hb _].
      rewrite hasKey_mapSet, getOrZero_mapSet.
      destruct (String.eqb_spec (keyOf b) g) as [E|_].
      * rewrite <- E, (Keys b Hb). repeat split.
        -- simpl. f_equal. lia.
        -- intros ND. apply N. now apply mapSet_NoDup.
      * repeat split. intros ND. apply N. now apply mapSet_NoDup.
    + repeat split. exact N.
Qed.

Lemma groupStats_facts g blooms abortions :
  mapGet g (groupStats keyOf blooms abortions)
  = (if Groups.isGroup keyOf g blooms
     then Some (Groups.stats keyOf g blooms abortions) else None)
  /\ NoDup (map fst (groupStats keyOf blooms abortions)).
Proof.
  unfold groupStats.
  assert (forall b, In b blooms ->
            hasKey (keyOf b) (fold_left (addBloom keyOf) blooms []) = true)
    as Keys.
  { intros b Hb. destruct (blooms_fold (keyOf b) blooms []) as [K _].
    rewrite K. simpl. unfold Groups.isGroup. apply existsb_exists.
    exists b. split; [exact Hb|apply String.eqb_refl]. }
  destruct (abortions_fold g blooms abortions _ Keys) as [K [G N]].
  destruct (blooms_fold g blooms []) as [K0 [G0 N0]].
  split.
  - rewrite mapGet_hasKey, K, G, K0, G0. simpl.
    destruct (Groups.isGroup keyOf g blooms); reflexivity.
  - apply N, N0. constructor.
Qed.

(** The entries of the aggregation map are exactly the groups, each with
    the totals of the specification. *)
Lemma groupStats_In g s blooms abortions :
  In (g, s) (groupStats keyOf blooms abortions)
  <-> Groups.isGroup keyOf g blooms = true
      /\ s = Groups.stats keyOf g blooms abortions.
Proof.
  destruct (groupStats_facts g blooms abortions) as [G N].
  split.
  - intros Hin. apply (In_mapGet_Some _ _ _ N) in Hin. rewrite G in Hin.
    destruct (Groups.isGroup keyOf g blooms); [|discriminate].
    injection Hin as <-. auto.
  - intros [I ->]. apply mapGet_Some_In. now rewrite G, I.
Qed.
End GroupFacts.

(** ** Rates *)

Lemma rateOf_no_total s :
  Stats.total s <= 0 -> Analytics.rateOf s = 0%Q.
Proof.
  intros T. unfold Analytics.rateOf.
  destruct (Z.ltb_spec 0 (Stats.total s)); [lia|reflexivity].
Qed.

Lemma rateOf_nonneg s :
  0 <= Stats.aborted s -> (0 <= Analytics.rateOf s)%Q.
Proof.
  destruct s as [t a]. unfold Analytics.rateOf. simpl. intros A.
  destruct t as [|p|p]; simpl; try apply Qle_refl.
  unfold Qle, Qdiv, Qmult, Qinv; simpl. lia.
Qed.

Lemma rateOf_le_100 s :
  Stats.aborted s <= Stats.total s -> (Analytics.rateOf s <= 100)%Q.
Proof.
  destruct s as [t a]. unfold Analytics.rateOf. simpl. intros A.
  destruct t as [|p|p]; simpl; unfold Qle, Qdiv, Qmult, Qinv; simpl; lia.
Qed.

Lemma rateOf_gt_100 s :
  0 < Stats.total s -> Stats.total s < Stats.aborted s ->
  (100 < Analytics.rateOf s)%Q.
Proof.
  destruct s as [t a]. unfold Analytics.rateOf. simpl. intros T A.
  destruct t as [|p|p]; try lia. simpl.
  unfold Qlt, Qdiv, Qmult, Qinv; simpl. lia.
Qed.

Lemma Qpositive_lt q : Analytics.Qpositive q = true <-> (0 < q)%Q.
Proof.
  unfold Analytics.Qpositive. rewrite Qlt_alt.
  destruct (0 ?= q)%Q; split; congruence.
Qed.

Lemma Qpositive_rateOf s :
  Analytics.Qpositive (Analytics.rateOf s) = true
  <-> 0 < Stats.total s /\ 0 < Stats.aborted s.
Proof.
  rewrite Qpositive_lt.
  destruct s as [t a]. unfold Analytics.rateOf. simpl.
  destruct t as [|p|p]; simpl.
  - split; [intros C; now apply Qlt_irrefl in C|lia].
  - unfold Qlt, Qdiv, Qmult, Qinv; simpl. lia.
  - split; [intros C; now apply Qlt_irrefl in C|lia].
Qed.

(** ** Ranking by rate *)

Lemma sort_descending {A : Type} (key : A -> Q) (l : list A) :
  StronglySorted (fun a b => (key b <= key a)%Q)
    (sort (fun a b => (key b ?= key a)%Q) l).
Proof.
  eapply StronglySorted_impl; [|apply sort_sorted].
  - intros a b. cbv beta. now rewrite <- Qle_alt.
  - intros a b G C. apply Qgt_alt in G. apply Qgt_alt in C.
    apply (Qlt_irrefl (key a)). now apply Qlt_trans with (key b).
  - intros a b c. rewrite <- !Qle_alt. intros X Y.
    now apply Qle_trans with (key b).
Qed.

Lemma In_slice0 {A : Type} (n : nat) (x : A) (l : list A) :
  In x (slice0 n l) -> In x l.
Proof.
  unfold slice0. revert l. induction n as [|n IH]; intros l; simpl.
  - intros [].
  - destruct l as [|y l]; simpl; [intros []|].
    intros [E|Hin]; auto.
Qed.

Lemma totalBloomed_positive_isGroup keyOf g blooms :
  0 < Groups.totalBloomed keyOf g blooms -> Groups.isGroup keyOf g blooms = true.
Proof.
  unfold Groups.totalBloomed, Groups.isGroup.
  induction blooms as [|b l IH]; simpl; [lia|].
  destruct (String.eqb (keyOf b) g); simpl; auto.
Qed.

Section ViewFacts.
Variable keyOf : BloomEntry.t -> string.

(** The entries that pass a filter on the statistics, as groups. *)
Lemma kept_entries {I : Type} (item : string * Stats.t -> I)
    (keep : I -> bool) blooms abortions (i : I) :
  In i (filter keep (map item (Analytics.groupStats keyOf blooms abortions)))
  <-> exists g,
        Groups.isGroup keyOf g blooms = true
        /\ keep (item (g, Groups.stats keyOf g blooms abortions)) = true
        /\ i = item (g, Groups.stats keyOf g blooms abortions).
Proof.
  rewrite filter_In, in_map_iff. split.
  - intros [[[g s] [E Hin]] K]. apply groupStats_In in Hin as [G ->].
    exists g. subst i. auto.
  - intros [g [G [K ->]]]. split; [|exact K].
    exists (g, Groups.stats keyOf g blooms abortions). split; [reflexivity|].
    apply groupStats_In. auto.
Qed.

Lemma rate_bounds blooms abortions g s :
  (forall a, In a abortions -> 0 <= AbortionEntry.abortedCount a) ->
  In (g, s) (Analytics.groupStats keyOf blooms abortions) ->
  (Stats.total s <= 0 -> Analytics.rateOf s = 0%Q)
  /\ (0 <= Analytics.rateOf s)%Q
  /\ (Stats.aborted s <= Stats.total s -> (Analytics.rateOf s <= 100)%Q)
  /\ (0 < Stats.total s -> Stats.total s < Stats.aborted s ->
      (100 < Analytics.rateOf s)%Q).
Proof.
  intros NN Hin. apply groupStats_In in Hin as [_ ->].
  repeat split.
  - apply rateOf_no_total.
  - apply rateOf_nonneg. simpl. unfold Groups.totalAborted.
    apply sumOver_nonneg. intros a Ha. apply filter_In in Ha as [Ha _]. auto.
  - apply rateOf_le_100.
  - apply rateOf_gt_100.
Qed.

Lemma orphan_skipped blooms before orphan after :
  (forall b, In b blooms ->
             BloomEntry.id b <> AbortionEntry.bloomEntryId orphan) ->
  Analytics.groupStats keyOf blooms (before ++ orphan :: after)
  = Analytics.groupStats keyOf blooms (before ++ after).
Proof.
  intros O. unfold Analytics.groupStats.
  rewrite !fold_left_app. cbn [fold_left]. f_equal.
  rewrite addAbortion_cases. unfold Groups.resolve.
  destruct (find _ blooms) as [b|] eqn:F; [|reflexivity].
  apply find_some in F as [Hb E]. apply String.eqb_eq in E.
  now destruct (O b Hb).
Qed.
End ViewFacts.

(** C4 (amended). Each view is the first ten of a ranking that is sorted by
    descending rate. The ranking by location holds exactly the groups whose
    total bloomed is positive, also those with nothing aborted. The ranking
    by variety holds exactly the groups whose rate is positive, that is
    those whose total bloomed and total aborted are both positive: a
    variety with blooms and no abortion is dropped. *)
Theorem abortion_views_keep_sort_truncate :
  forall blooms abortions,
    (exists ranked,
        Analytics.locationRates blooms abortions = firstn 10 ranked
        /\ StronglySorted
             (fun a b => (AbortionRateData.rate b <= AbortionRateData.rate a)%Q)
             ranked
        /\ forall item,
             In item ranked <->
             exists g,
               0 < Groups.totalBloomed BloomEntry.location g blooms
               /\ item = Analytics.locationItem
                           (g, Groups.stats BloomEntry.location g blooms abortions))
    /\ (exists ranked,
           Analytics.varietyRates blooms abortions = firstn 10 ranked
           /\ StronglySorted
                (fun a b => (ChartData.y b <= ChartData.y a)%Q) ranked
           /\ forall item,
                In item ranked <->
                exists g,
                  0 < Groups.totalBloomed Groups.varietyKey g blooms
                  /\ 0 < Groups.totalAborted Groups.varietyKey g blooms abortions
                  /\ item = Analytics.varietyItem
                              (g, Groups.stats Groups.varietyKey g blooms abortions)).
Proof.
  intros blooms abortions. split.
  - eexists. split; [reflexivity|]. split.
    + apply (sort_descending AbortionRateData.rate).
    + intros item. rewrite sort_In. unfold Analytics.locationStats.
      rewrite kept_entries. simpl. split.
      * intros [g [_ [K E]]]. apply Z.ltb_lt in K. eauto.
      * intros [g [K E]]. exists g. split; [|split]; auto.
        -- now apply totalBloomed_positive_isGroup.
        -- now apply Z.ltb_lt.
  - eexists. split; [reflexivity|]. split.
    + apply (sort_descending ChartData.y).
    + intros item. rewrite sort_In. unfold Analytics.varietyStats.
      fold Groups.varietyKey.
      change (fun bloom => varietyName (BloomEntry.variety bloom))
        with Groups.varietyKey.
      rewrite kept_entries. simpl. split.
      * intros [g [_ [K E]]]. apply Qpositive_rateOf in K. simpl in K.
        exists g. tauto.
      * intros [g [T [A E]]]. exists g. split; [|split]; auto.
        -- now apply totalBloomed_positive_isGroup.
        -- apply Qpositive_rateOf. simpl. auto.
Qed.

(** C4 as stated fails for the view by variety: the Red group has 10
    flowers bloomed and none aborted, and is missing from the view. *)
Lemma variety_view_drops_group_counterexample :
  Groups.totalBloomed Groups.varietyKey "Red" [Sample.bloom "b1" 10] = 10
  /\ Analytics.varietyStats [Sample.bloom "b1" 10] [] = [("Red", Stats.mk 10 0)]
  /\ Analytics.varietyRates [Sample.bloom "b1" 10] [] = []
  /\ map AbortionRateData.location
       (Analytics.locationRates [Sample.bloom "b1" 10] []) = ["N11A"].
Proof. repeat split. Qed.

(** C5 (amended). For every group of either aggregation the rate is 0 when
    the group's total bloomed is not positive; it is at least 0 when no
    abortion entry has a negative count; it is at most 100 when the group's
    aborted total does not exceed its total bloomed; and on over-abortion
    data (aborted above a positive total) it is above 100. Every rate in a
    view is the rate of such a group. *)
Theorem abortion_rate_bounds :
  forall blooms abortions,
    (forall a, In a abortions -> 0 <= AbortionEntry.abortedCount a) ->
    (forall g s,
        In (g, s) (Analytics.locationStats blooms abortions)
        \/ In (g, s) (Analytics.varietyStats blooms abortions) ->
        (Stats.total s <= 0 -> Analytics.rateOf s = 0%Q)
        /\ (0 <= Analytics.rateOf s)%Q
        /\ (Stats.aborted s <= Stats.total s -> (Analytics.rateOf s <= 100)%Q)
        /\ (0 < Stats.total s -> Stats.total s < Stats.aborted s ->
            (100 < Analytics.rateOf s)%Q))
    /\ (forall item,
           In item (Analytics.locationRates blooms abortions) ->
           exists s, In (AbortionRateData.location item, s)
                        (Analytics.locationStats blooms abortions)
                     /\ AbortionRateData.rate item = Analytics.rateOf s)
    /\ (forall item,
           In item (Analytics.varietyRates blooms abortions) ->
           exists s, In (ChartData.x item, s)
                        (Analytics.varietyStats blooms abortions)
                     /\ ChartData.y item = Analytics.rateOf s).
Proof.
  intros blooms abortions NN. split; [|split].
  - intros g s [Hin|Hin]; eapply rate_bounds; eauto.
  - intros item Hin. apply In_slice0, sort_In, filter_In in Hin as [Hin _].
    apply in_map_iff in Hin as [[g s] [<- Hin]]. exists s. auto.
  - intros item Hin. apply In_slice0, sort_In, filter_In in Hin as [Hin _].
    apply in_map_iff in Hin as [[g s] [<- Hin]]. exists s. auto.
Qed.

Lemma abortion_rate_bounds_witness :
  (forall a, In a [Sample.abortion "b1" 3] -> 0 <= AbortionEntry.abortedCount a)
  /\ (0 <= Analytics.rateOf (Stats.mk 10 3))%Q
  /\ (Analytics.rateOf (Stats.mk 10 3) <= 100)%Q.
Proof.
  assert (forall a, In a [Sample.abortion "b1" 3] ->
                    0 <= AbortionEntry.abortedCount a) as NN.
  { intros a [<-|[]]. vm_compute. congruence. }
  split; [exact NN|].
  destruct (proj1 (abortion_rate_bounds [Sample.bloom "b1" 10]
                     [Sample.abortion "b1" 3] NN)
              "N11A" (Stats.mk 10 3) (or_introl (or_introl eq_refl)))
    as [_ [Lo [Hi _]]].
  split; [exact Lo|].
  apply Hi. vm_compute. congruence.
Defined.

(** C5 as stated fails on over-abortion: a location with 5 bloomed and 10
    aborted gets the rate 200. *)
Lemma abortion_rate_above_100_counterexample :
  map (fun item => (AbortionRateData.total item, AbortionRateData.aborted item))
      (Analytics.locationRates [Sample.bloom "b1" 5] [Sample.abortion "b1" 10])
  = [(5, 10)]
  /\ Forall (fun item => (AbortionRateData.rate item == 200)%Q
                         /\ ~ (AbortionRateData.rate item <= 100)%Q)
       (Analytics.locationRates [Sample.bloom "b1" 5] [Sample.abortion "b1" 10]).
Proof.
  split; [reflexivity|].
  repeat constructor; vm_compute; congruence.
Qed.

(** Scenario 2 of the specification: 3 aborted of 10 is a rate of 30. *)
Example scenario_2_rate :
  Forall (fun c => ChartData.x c = "Red" /\ (ChartData.y c == 30)%Q)
    (Analytics.varietyRates [Sample.bloom "b1" 10] [Sample.abortion "b1" 3])
  /\ List.length
       (Analytics.varietyRates [Sample.bloom "b1" 10] [Sample.abortion "b1" 3])
     = 1%nat.
Proof. split; [repeat constructor|reflexivity]. Qed.

(** C9. An abortion entry whose [bloomEntryId] is the identifier of no
    loaded bloom leaves both aggregations as they are without it: the
    statistics of every group, and so both views, are unchanged. *)
Theorem orphan_abortion_contributes_nothing :
  forall blooms before orphan after,
    (forall b, In b blooms ->
               BloomEntry.id b <> AbortionEntry.bloomEntryId orphan) ->
    Analytics.locationStats blooms (before ++ orphan :: after)
    = Analytics.locationStats blooms (before ++ after)
    /\ Analytics.varietyStats blooms (before ++ orphan :: after)
       = Analytics.varietyStats blooms (before ++ after)
    /\ Analytics.locationRates blooms (before ++ orphan :: after)
       = Analytics.locationRates blooms (before ++ after)
    /\ Analytics.varietyRates blooms (before ++ orphan :: after)
       = Analytics.varietyRates blooms (before ++ after).
Proof.
  intros blooms before orphan after O.
  unfold Analytics.locationRates, Analytics.varietyRates,
    Analytics.locationStats, Analytics.varietyStats.
  rewrite !(orphan_skipped _ _ _ _ _ O). auto.
Qed.

Lemma orphan_abortion_contributes_nothing_witness :
  (forall b, In b [Sample.bloom "b1" 10] ->
             BloomEntry.id b <> AbortionEntry.bloomEntryId (Sample.abortion "ghost" 4))
  /\ Analytics.locationStats [Sample.bloom "b1" 10]
       ([Sample.abortion "b1" 3] ++ Sample.abortion "ghost" 4 :: [])
     = [("N11A", Stats.mk 10 3)].
Proof.
  assert (forall b, In b [Sample.bloom "b1" 10] ->
            BloomEntry.id b
            <> AbortionEntry.bloomEntryId (Sample.abortion "ghost" 4)) as O.
  { intros b [<-|[]]. vm_compute. congruence. }
  split; [exact O|].
  rewrite (proj1 (orphan_abortion_contributes_nothing
                    [Sample.bloom "b1" 10] [Sample.abortion "b1" 3]
                    (Sample.abortion "ghost" 4) [] O)).
  reflexivity.
Defined.

(** ** Entry workflows *)

(** C3. The abortion workflow checks the submitted count against
    count - aborted only, as [loadBloomEntries] computed it, and harvests
    play no part. For a bloom of 10 with 7 already harvested the remaining
    count is 3, yet an abortion of 5 passes validation and is handed to
    [saveAbortionEntry]. *)
Theorem abortion_beyond_remaining_is_persisted :
  Ledger.remaining (Sample.bloom "b1" 10) [] [Sample.harvest "b1" 7] = 3
  /\ Abortion.loadBloomEntries [Sample.bloom "b1" 10] []
     = [{| Abortion.bloom := Sample.bloom "b1" 10;
           Abortion.remainingCount := 10 |}]
  /\ Abortion.handleSave
       {| Abortion.selectedBloom :=
            Some {| Abortion.bloom := Sample.bloom "b1" 10;
                    Abortion.remainingCount := 10 |};
          Abortion.abortionDate := "2024-01-28";
          Abortion.abortedCount := "5";
          Abortion.notes := "" |}
       "1706432400000" "2024-01-28T09:00:00.000Z"
     = Persist
         (AbortionEntry.mk "1706432400000" "2024-01-28" "b1" 5 None None
            "2024-01-28T09:00:00.000Z").
Proof. repeat split. Qed.

(** The harvest workflow, whose forecasts subtract abortions and harvests,
    rejects the same count on the same history. *)
Example harvest_beyond_remaining_example :
  Harvest.handleSaveHarvest
    {| Harvest.harvestForecasts :=
         Harvest.loadHarvestData "2024-01-28" [Sample.bloom "b1" 10] []
           [Sample.harvest "b1" 7];
       Harvest.selectedBloom := Some (Sample.bloom "b1" 10);
       Harvest.harvestDate := "2024-01-28";
       Harvest.harvestedCount := "5";
       Harvest.notes := "";
       Harvest.imageUri := "" |}
    "1706432400000" "2024-01-28T09:00:00.000Z"
  = Alerted "Validation Error" "Cannot harvest more than 3 remaining fruits".
Proof. vm_compute. reflexivity. Qed.

(** With forecasts freshly loaded and distinct bloom identifiers, the
    harvest workflow rejects every count above the remaining count of the
    selected bloom. *)
Theorem harvest_beyond_remaining_rejected :
  forall (D : DateUtils) today blooms abortions harvests b st now nowIso n,
    NoDup (map BloomEntry.id blooms) ->
    In b blooms ->
    0 < Ledger.difference b abortions harvests ->
    Harvest.harvestForecasts st
    = Harvest.loadHarvestData today blooms abortions harvests ->
    Harvest.selectedBloom st = Some b ->
    parseInt (Harvest.harvestedCount st) = Some n ->
    Ledger.remaining b abortions harvests < n ->
    exists message,
      Harvest.handleSaveHarvest st now nowIso = Alerted "Validation Error" message.
Proof.
  intros D today blooms abortions harvests b st now nowIso n ND Hb P L S C R.
  unfold Harvest.handleSaveHarvest. rewrite S, C, L.
  destruct (n <=? 0); [eauto|].
  destruct (find_first
              (fun f => String.eqb (HarvestForecast.id f) (BloomEntry.id b))
              (Harvest.loadHarvestData today blooms abortions harvests))
    as [f [F [Hf Pf]]].
  { exists (Harvest.forecastOf today abortions harvests b). split.
    - apply loadHarvestData_In. eauto.
    - apply String.eqb_refl. }
  rewrite F.
  apply loadHarvestData_In in Hf as [b' [Hb' [-> _]]].
  apply String.eqb_eq in Pf. simpl in Pf.
  assert (b' = b) by (now apply (unique_id_bloom blooms)). subst b'.
  rewrite forecastOf_remaining.
  unfold Ledger.remaining in R.
  destruct (Z.ltb_spec (Ledger.difference b abortions harvests) n); [eauto|lia].
Qed.

Lemma harvest_beyond_remaining_rejected_witness :
  exists message,
    Harvest.handleSaveHarvest
      {| Harvest.harvestForecasts :=
           Harvest.loadHarvestData "2024-01-20" [Sample.bloom "b1" 10]
             [Sample.abortion "b1" 3] [];
         Harvest.selectedBloom := Some (Sample.bloom "b1" 10);
         Harvest.harvestDate := "2024-01-20";
         Harvest.harvestedCount := "8";
         Harvest.notes := "";
         Harvest.imageUri := "" |}
      "1705741200000" "2024-01-20T09:00:00.000Z"
    = Alerted "Validation Error" message.
Proof.
  apply (harvest_beyond_remaining_rejected calendarDates "2024-01-20"
           [Sample.bloom "b1" 10] [Sample.abortion "b1" 3] []
           (Sample.bloom "b1" 10) _ _ _ 8).
  - repeat constructor. intros [].
  - now left.
  - reflexivity.
  - reflexivity.
  - reflexivity.
  - reflexivity.
  - reflexivity.
Defined.

(** The abortion workflow rejects every count above count - aborted of the
    selected bloom, as well as text that is no number and counts that are
    not positive. *)
Theorem abortion_beyond_unaborted_rejected :
  forall blooms abortions sel st now nowIso,
    In sel (Abortion.loadBloomEntries blooms abortions) ->
    Abortion.selectedBloom st = Some sel ->
    match parseInt (Abortion.abortedCount st) with
    | None => True
    | Some n =>
        n <= 0
        \/ BloomEntry.count (Abortion.bloom sel)
           - Ledger.totalAborted (Abortion.bloom sel) abortions < n
    end ->
    exists message,
      Abortion.handleSave st now nowIso = Alerted "Validation Error" message.
Proof.
  intros blooms abortions sel st now nowIso Hsel S C.
  unfold Abortion.handleSave. rewrite S.
  destruct (parseInt (Abortion.abortedCount st)) as [n|]; [|eauto].
  destruct (Z.leb_spec n 0); [eauto|].
  destruct C as [C|C]; [lia|].
  unfold Abortion.loadBloomEntries in Hsel.
  apply filter_In in Hsel as [Hsel _].
  apply in_map_iff in Hsel as [b [<- _]]. simpl in *.
  rewrite reduceSum_sumOver.
  unfold Ledger.totalAborted in C.
  destruct (Z.ltb_spec
              (BloomEntry.count b
               - Ledger.sumOver AbortionEntry.abortedCount
                   (filter (fun abortion =>
                              String.eqb (AbortionEntry.bloomEntryId abortion)
                                         (BloomEntry.id b)) abortions)) n);
    [eauto|lia].
Qed.

Lemma abortion_beyond_unaborted_rejected_witness :
  exists message,
    Abortion.handleSave
      {| Abortion.selectedBloom :=
           Some {| Abortion.bloom := Sample.bloom "b1" 10;
                   Abortion.remainingCount := 7 |};
         Abortion.abortionDate := "2024-01-06";
         Abortion.abortedCount := "8";
         Abortion.notes := "" |}
      "1704531600000" "2024-01-06T09:00:00.000Z"
    = Alerted "Validation Error" message.
Proof.
  apply (abortion_beyond_unaborted_rejected
           [Sample.bloom "b1" 10] [Sample.abortion "b1" 3]
           {| Abortion.bloom := Sample.bloom "b1" 10;
              Abortion.remainingCount := 7 |}).
  - now left.
  - reflexivity.
  - right. reflexivity.
Defined.

(** ** Numbers as text and back *)

Lemma digits_decimal (d : Decimal.uint) :
  forall a,
    ParseInt.digits 10 (Some a) (NilEmpty.string_of_uint d)
    = Some (decimalValue d a).
Proof.
  induction d; intros a; cbn [NilEmpty.string_of_uint decimalValue];
    try reflexivity;
    cbn [ParseInt.digits];
    match goal with
    | |- context [ParseInt.digitVal 10 ?c] =>
        change (ParseInt.digitVal 10 c) with (Some (Z.of_nat (nat_of_ascii c) - 48))
    end; cbn [nat_of_ascii]; apply IHd.
Qed.

Lemma decimalValue_pos (d : Decimal.uint) :
  forall p, decimalValue d (Z.pos p) = Z.pos (Pos.of_uint_acc d p).
Proof.
  induction d; intros p; cbn [decimalValue Pos.of_uint_acc]; try reflexivity;
    rewrite <- IHd; f_equal; lia.
Qed.

Lemma decimalValue_of_uint (d : Decimal.uint) :
  decimalValue d 0 = Z.of_N (Pos.of_uint d).
Proof.
  induction d; cbn [decimalValue Pos.of_uint]; try reflexivity;
    try (exact IHd);
    match goal with
    | |- decimalValue _ ?k = _ =>
        change k with (Z.pos (Z.to_pos k)); rewrite decimalValue_pos; reflexivity
    end.
Qed.

Lemma parseInt_decimal (d : Decimal.uint) :
  d <> Decimal.Nil ->
  ParseInt.unsigned (NilEmpty.string_of_uint d) = Some (decimalValue d 0)
  /\ parseInt (NilEmpty.string_of_uint d) = Some (decimalValue d 0).
Proof.
  intros N.
  destruct d as [|d|d|d|d|d|d|d|d|d|d]; try congruence;
    try (split; apply (digits_decimal d)).
  destruct d; split; try reflexivity; apply (digits_decimal d).
Qed.

(** [parseInt(n.toString())] is [n], for every integer. *)
Lemma parseInt_showZ (z : Z) : parseInt (showZ z) = Some z.
Proof.
  destruct z as [|p|p]; [reflexivity| |].
  - unfold showZ. cbn [Z.to_int NilZero.string_of_int].
    assert (Pos.to_uint p <> Decimal.Nil) as N.
    { intros E. generalize (DecimalPos.Unsigned.of_to p). rewrite E. discriminate. }
    unfold NilZero.string_of_uint.
    destruct (Pos.to_uint p) eqn:E; try congruence;
      rewrite <- E in *; rewrite (proj2 (parseInt_decimal _ N)),
        decimalValue_of_uint, DecimalPos.Unsigned.of_to; reflexivity.
  - unfold showZ. cbn [Z.to_int NilZero.string_of_int].
    assert (Pos.to_uint p <> Decimal.Nil) as N.
    { intros E. generalize (DecimalPos.Unsigned.of_to p). rewrite E. discriminate. }
    unfold NilZero.string_of_uint.
    destruct (Pos.to_uint p) eqn:E; try congruence;
      rewrite <- E in *;
      change (parseInt (String "-" (NilEmpty.string_of_uint (Pos.to_uint p))))
        with (option_map Z.opp
                (ParseInt.unsigned (NilEmpty.string_of_uint (Pos.to_uint p))));
      rewrite (proj1 (parseInt_decimal _ N)),
        decimalValue_of_uint, DecimalPos.Unsigned.of_to; reflexivity.
Qed.

(** ** Storage *)

(** Over keys that hold nothing, text that does not parse, or an array
    this module wrote: a saver that succeeds had a working write and
    leaves, under its key, the entries its own read returned followed by
    the new entry, touching no other key; a failing write makes each saver
    fail. So with a working read every earlier entry is kept, in order, and
    the new one is last; when the read fails or the stored text does not
    parse, the collection is replaced by the new entry alone. *)
Theorem saved_entry_is_appended :
  forall readOk writeOk s,
    (forall e s',
        Storage.saveBloomEntry readOk writeOk e s = Some s' ->
        writeOk = true
        /\ Storage.getBloomEntries true s'
           = (Storage.getBloomEntries readOk s ++ [e])%list
        /\ Storage.abortion_entries s' = Storage.abortion_entries s
        /\ Storage.harvest_entries s' = Storage.harvest_entries s
        /\ Storage.app_settings s' = Storage.app_settings s)
    /\ (forall e s',
           Storage.saveAbortionEntry readOk writeOk e s = Some s' ->
           writeOk = true
           /\ Storage.getAbortionEntries true s'
              = (Storage.getAbortionEntries readOk s ++ [e])%list
           /\ Storage.bloom_entries s' = Storage.bloom_entries s
           /\ Storage.harvest_entries s' = Storage.harvest_entries s
           /\ Storage.app_settings s' = Storage.app_settings s)
    /\ (forall e s',
           Storage.saveHarvestEntry readOk writeOk e s = Some s' ->
           writeOk = true
           /\ Storage.getHarvestEntries true s'
              = (Storage.getHarvestEntries readOk s ++ [e])%list
           /\ Storage.bloom_entries s' = Storage.bloom_entries s
           /\ Storage.abortion_entries s' = Storage.abortion_entries s
           /\ Storage.app_settings s' = Storage.app_settings s)
    /\ (writeOk = false ->
        forall eb ea eh,
          Storage.saveBloomEntry readOk writeOk eb s = None
          /\ Storage.saveAbortionEntry readOk writeOk ea s = None
          /\ Storage.saveHarvestEntry readOk writeOk eh s = None)
    /\ (Storage.bloom_entries s = Storage.Unparsable \/ readOk = false ->
        forall e, Storage.getBloomEntries readOk s = []
                  /\ (writeOk = true ->
                      option_map (Storage.getBloomEntries true)
                        (Storage.saveBloomEntry readOk writeOk e s)
                      = Some [e])).
Proof.
  intros readOk writeOk s.
  unfold Storage.saveBloomEntry, Storage.saveAbortionEntry,
    Storage.saveHarvestEntry.
  split; [|split; [|split; [|split]]];
    try (intros e s'; destruct writeOk; [|discriminate];
         intros [= <-]; repeat split; reflexivity).
  - intros ->. intros eb ea eh. repeat split.
  - intros Lost e.
    assert (Storage.getBloomEntries readOk s = []) as Empty.
    { destruct Lost as [U| ->]; [|reflexivity].
      unfold Storage.getBloomEntries. rewrite U. now destruct readOk. }
    split; [exact Empty|].
    intros ->. simpl. now rewrite Empty.
Qed.

Lemma map_replace_facts (updated : BloomEntry.t) (entries : list BloomEntry.t) :
  let replace entry :=
    if String.eqb (BloomEntry.id entry) (BloomEntry.id updated)
    then updated else entry in
  List.length (map replace entries) = List.length entries
  /\ map BloomEntry.id (map replace entries) = map BloomEntry.id entries
  /\ (forall e, In e (map replace entries) ->
                e = updated
                \/ (In e entries /\ BloomEntry.id e <> BloomEntry.id updated))
  /\ ((forall e, In e entries -> BloomEntry.id e <> BloomEntry.id updated) ->
      map replace entries = entries)
  /\ map replace (map replace entries) = map replace entries.
Proof.
  intros replace. induction entries as [|x l [L [I [M [U T]]]]]; simpl.
  - repeat split; auto; try (intros e []).
  - assert (replace updated = updated) as RU
      by (unfold replace; now rewrite String.eqb_refl).
    repeat split.
    + now rewrite L.
    + rewrite I. f_equal. unfold replace.
      destruct (String.eqb_spec (BloomEntry.id x) (BloomEntry.id updated));
        congruence.
    + intros e [E|Hin].
      * unfold replace in E.
        destruct (String.eqb_spec (BloomEntry.id x) (BloomEntry.id updated));
          subst; auto.
      * destruct (M e Hin) as [->|[Hl N]]; auto.
    + intros N. rewrite U by (intros e He; apply N; now right).
      f_equal. unfold replace.
      destruct (String.eqb_spec (BloomEntry.id x) (BloomEntry.id updated)) as [E|_];
        [|reflexivity].
      exfalso. apply (N x); auto.
    + rewrite T. f_equal. unfold replace at 1 2 3.
      destruct (String.eqb_spec (BloomEntry.id x) (BloomEntry.id updated)) as [E|NE].
      * now rewrite String.eqb_refl.
      * destruct (String.eqb_spec (BloomEntry.id x) (BloomEntry.id updated));
          congruence.
Qed.

(** With a working read, a successful [updateBloomEntry] rewrites the
    stored blooms in place: their number, identifiers and order stay; every
    bloom with the identifier of the update becomes the update and every
    other bloom is kept; when no bloom has that identifier nothing is added
    and the blooms stay as they were; applying the same update again
    changes nothing; the other keys are untouched. With a failing read, a
    successful update stores the empty list in place of the blooms. *)
Theorem updateBloomEntry_in_place :
  forall updated s s',
    Storage.updateBloomEntry true true updated s = Some s' ->
    List.length (Storage.getBloomEntries true s')
    = List.length (Storage.getBloomEntries true s)
    /\ map BloomEntry.id (Storage.getBloomEntries true s')
       = map BloomEntry.id (Storage.getBloomEntries true s)
    /\ (forall e, In e (Storage.getBloomEntries true s') ->
                  e = updated
                  \/ (In e (Storage.getBloomEntries true s)
                      /\ BloomEntry.id e <> BloomEntry.id updated))
    /\ (forall e, In e (Storage.getBloomEntries true s) ->
                  BloomEntry.id e = BloomEntry.id updated ->
                  In updated (Storage.getBloomEntries true s'))
    /\ ((forall e, In e (Storage.getBloomEntries true s) ->
                   BloomEntry.id e <> BloomEntry.id updated) ->
        Storage.getBloomEntries true s' = Storage.getBloomEntries true s)
    /\ option_map (Storage.getBloomEntries true)
         (Storage.updateBloomEntry true true updated s')
       = Some (Storage.getBloomEntries true s')
    /\ Storage.abortion_entries s' = Storage.abortion_entries s
    /\ Storage.harvest_entries s' = Storage.harvest_entries s
    /\ Storage.app_settings s' = Storage.app_settings s
    /\ option_map (Storage.getBloomEntries true)
         (Storage.updateBloomEntry false true updated s)
       = Some [].
Proof.
  intros updated s s' E.
  unfold Storage.updateBloomEntry in E. injection E as <-.
  destruct (map_replace_facts updated (Storage.getBloomEntries true s))
    as [L [I [M [U T]]]].
  cbn [Storage.getBloomEntries Storage.readEntries Storage.bloom_entries
         Storage.abortion_entries Storage.harvest_entries Storage.app_settings
         Storage.updateBloomEntry option_map].
  repeat split; auto.
  - intros e He Ee. fold (Storage.getBloomEntries true s).
    apply in_map_iff. exists e. split; [|exact He].
    apply String.eqb_eq in Ee. now rewrite Ee.
  - f_equal. exact T.
Qed.

Lemma updateBloomEntry_in_place_witness :
  List.length
    (Storage.getBloomEntries true
       {| Storage.bloom_entries :=
            Storage.Text [Sample.bloom "b1" 12; Sample.bloom "b2" 4];
          Storage.abortion_entries := Storage.Absent;
          Storage.harvest_entries := Storage.Absent;
          Storage.app_settings := Storage.Absent |})
  = List.length
      (Storage.getBloomEntries true
         {| Storage.bloom_entries :=
              Storage.Text [Sample.bloom "b1" 10; Sample.bloom "b2" 4];
            Storage.abortion_entries := Storage.Absent;
            Storage.harvest_entries := Storage.Absent;
            Storage.app_settings := Storage.Absent |}).
Proof.
  exact (proj1 (updateBloomEntry_in_place (Sample.bloom "b1" 12)
                  {| Storage.bloom_entries :=
                       Storage.Text [Sample.bloom "b1" 10; Sample.bloom "b2" 4];
                     Storage.abortion_entries := Storage.Absent;
                     Storage.harvest_entries := Storage.Absent;
                     Storage.app_settings := Storage.Absent |}
                  _ eq_refl)).
Defined.

(** Settings come back as they were saved, whatever the store held
    before; they survive [clearAllData], which empties the three entry
    collections; and a store without settings, with settings that do not
    parse, or that cannot be read, gives the defaults (Red, 26 days,
    notifications on). *)
Theorem settings_round_trip :
  forall settings s,
    option_map (Storage.getSettings true) (Storage.saveSettings true settings s)
    = Some settings
    /\ (forall s1 s2,
           Storage.saveSettings true settings s = Some s1 ->
           Storage.clearAllData true s1 = Some s2 ->
           Storage.getSettings true s2 = settings
           /\ Storage.getBloomEntries true s2 = []
           /\ Storage.getAbortionEntries true s2 = []
           /\ Storage.getHarvestEntries true s2 = [])
    /\ (Storage.app_settings s = Storage.Absent
        \/ Storage.app_settings s = Storage.Unparsable ->
        Storage.getSettings true s = Storage.defaultSettings)
    /\ Storage.getSettings false s = Storage.defaultSettings
    /\ Storage.maturityPeriodDays Storage.defaultSettings = 26.
Proof.
  intros settings s.
  assert (Storage.overDefaults (Storage.stringifySettings settings) = settings) as R.
  { destruct settings as [v d [l|] n]; reflexivity. }
  split; [|split; [|split; [|split]]].
  - simpl. unfold Storage.getSettings. simpl. now rewrite R.
  - intros s1 s2 Sv Cl. injection Sv as <-. injection Cl as <-.
    unfold Storage.getSettings. simpl. auto.
  - intros [E|E]; unfold Storage.getSettings; now rewrite E.
  - reflexivity.
  - reflexivity.
Qed.

(** ** What the forms persist *)

(** The bloom form persists an entry exactly when a location is chosen
    and both the count and the maturity period read as positive integers;
    the entry carries those numbers and the chosen fields. Nothing else is
    checked: the location need not be one of the catalog. *)
Theorem bloom_form_persists_valid_entries :
  forall st now nowIso e,
    Bloom.handleSave st now nowIso = Persist e
    <-> Bloom.location st <> ""
        /\ exists countNum maturityDays,
             parseInt (Bloom.count st) = Some countNum
             /\ 0 < countNum
             /\ parseInt (Bloom.maturityPeriodDays st) = Some maturityDays
             /\ 0 < maturityDays
             /\ e = {| BloomEntry.id := now;
                       BloomEntry.date := Bloom.date st;
                       BloomEntry.location := Bloom.location st;
                       BloomEntry.variety := Bloom.variety st;
                       BloomEntry.count := countNum;
                       BloomEntry.maturityPeriodDays := maturityDays;
                       BloomEntry.imageUri := orUndefined (Bloom.imageUri st);
                       BloomEntry.notes := orUndefined (Bloom.notes st);
                       BloomEntry.createdAt := nowIso |}.
Proof.
  intros st now nowIso e. unfold Bloom.handleSave.
  destruct (String.eqb_spec (Bloom.location st) "") as [L|L].
  - split; [discriminate|]. intros [N _]. contradiction.
  - destruct (parseInt (Bloom.count st)) as [c|].
    + destruct (Z.leb_spec c 0).
      * split; [discriminate|]. intros [_ [c' [m [[= <-] [P _]]]]]. lia.
      * destruct (parseInt (Bloom.maturityPeriodDays st)) as [m|].
        -- destruct (Z.leb_spec m 0).
           ++ split; [discriminate|].
              intros [_ [c' [m' [_ [_ [[= <-] [P _]]]]]]]. lia.
           ++ split.
              ** intros [= <-]. split; [exact L|]. exists c, m. auto.
              ** intros [_ [c' [m' [[= <-] [_ [[= <-] [_ ->]]]]]]]. reflexivity.
        -- split; [discriminate|].
           intros [_ [c' [m' [_ [_ [C _]]]]]]. discriminate.
    + split; [discriminate|]. intros [_ [c' [m' [C _]]]]. discriminate.
Qed.

Example bloom_form_takes_unknown_location :
  FarmLocations.getLocationById "Z99" = None
  /\ exists e,
       Bloom.handleSave
         {| Bloom.date := "2024-01-01";
            Bloom.locationType := Greenhouse;
            Bloom.location := "Z99";
            Bloom.variety := Red;
            Bloom.count := "3";
            Bloom.maturityPeriodDays := "26";
            Bloom.notes := "";
            Bloom.imageUri := "" |}
         "1704096000000" "2024-01-01T08:00:00.000Z"
       = Persist e.
Proof. split; [vm_compute; reflexivity|eexists; reflexivity]. Qed.

Lemma abortion_persist_inv st now nowIso e :
  Abortion.handleSave st now nowIso = Persist e ->
  exists selected countNum,
    Abortion.selectedBloom st = Some selected
    /\ parseInt (Abortion.abortedCount st) = Some countNum
    /\ 0 < countNum <= Abortion.remainingCount selected
    /\ e = {| AbortionEntry.id := now;
              AbortionEntry.abortionDate := Abortion.abortionDate st;
              AbortionEntry.bloomEntryId := BloomEntry.id (Abortion.bloom selected);
              AbortionEntry.abortedCount := countNum;
              AbortionEntry.notes := orUndefined (Abortion.notes st);
              AbortionEntry.imageUri := None;
              AbortionEntry.createdAt := nowIso |}.
Proof.
  unfold Abortion.handleSave.
  destruct (Abortion.selectedBloom st) as [sel|]; [|discriminate].
  destruct (parseInt (Abortion.abortedCount st)) as [n|]; [|discriminate].
  destruct (Z.leb_spec n 0); [discriminate|].
  destruct (Z.ltb_spec (Abortion.remainingCount sel) n); [discriminate|].
  intros [= <-]. exists sel, n. repeat split; auto.
Qed.

Lemma harvest_persist_inv st now nowIso e :
  Harvest.handleSaveHarvest st now nowIso = Persist e ->
  exists selected countNum,
    Harvest.selectedBloom st = Some selected
    /\ parseInt (Harvest.harvestedCount st) = Some countNum
    /\ 0 < countNum
    /\ (forall forecast,
           find (fun f => String.eqb (HarvestForecast.id f) (BloomEntry.id selected))
                (Harvest.harvestForecasts st) = Some forecast ->
           countNum <= HarvestForecast.remainingCount forecast)
    /\ e = {| HarvestEntry.id := now;
              HarvestEntry.harvestDate := Harvest.harvestDate st;
              HarvestEntry.bloomEntryId := BloomEntry.id selected;
              HarvestEntry.harvestedCount := countNum;
              HarvestEntry.notes := orUndefined (Harvest.notes st);
              HarvestEntry.imageUri := orUndefined (Harvest.imageUri st);
              HarvestEntry.createdAt := nowIso |}.
Proof.
  unfold Harvest.handleSaveHarvest.
  destruct (Harvest.selectedBloom st) as [sel|]; [|discriminate].
  destruct (parseInt (Harvest.harvestedCount st)) as [n|]; [|discriminate].
  destruct (Z.leb_spec n 0); [discriminate|].
  destruct (find _ (Harvest.harvestForecasts st)) as [f|] eqn:F.
  - destruct (Z.ltb_spec (HarvestForecast.remainingCount f) n); [discriminate|].
    intros [= <-]. exists sel, n. repeat split; auto.
    intros f' E. rewrite F in E. injection E as <-. assumption.
  - intros [= <-]. exists sel, n. repeat split; auto.
    intros f' E. rewrite F in E. discriminate.
Qed.

(** A submission changes the store only when the success alert is shown,
    and then by appending the one validated entry under its own key: a
    validation error or a failed write leaves every stored collection as
    it was. *)
Theorem only_success_changes_store :
  forall now nowIso readOk writeOk s,
    (forall st title message s',
        Submit.bloom st now nowIso readOk writeOk s = (title, message, s') ->
        (title = "Success"
         /\ exists e, Bloom.handleSave st now nowIso = Persist e
                      /\ Storage.saveBloomEntry readOk writeOk e s = Some s')
        \/ (title <> "Success" /\ s' = s))
    /\ (forall st title message s',
           Submit.abortion st now nowIso readOk writeOk s = (title, message, s') ->
           (title = "Success"
            /\ exists e, Abortion.handleSave st now nowIso = Persist e
                         /\ Storage.saveAbortionEntry readOk writeOk e s = Some s')
           \/ (title <> "Success" /\ s' = s))
    /\ (forall st title message s',
           Submit.harvest st now nowIso readOk writeOk s = (title, message, s') ->
           (title = "Success"
            /\ exists e, Harvest.handleSaveHarvest st now nowIso = Persist e
                         /\ Storage.saveHarvestEntry readOk writeOk e s = Some s')
           \/ (title <> "Success" /\ s' = s)).
Proof.
  intros now nowIso readOk writeOk s. repeat split.
  - intros st title message s'. unfold Submit.bloom.
    destruct (Bloom.handleSave st now nowIso) as [t m|e] eqn:V.
    + intros [= <- <- <-]. right. split; [|reflexivity].
      unfold Bloom.handleSave in V.
      repeat match type of V with
             | context [match ?x with _ => _ end] => destruct x
             end; try discriminate V; injection V as <- _; discriminate.
    + destruct (Storage.saveBloomEntry readOk writeOk e s) eqn:W;
        intros [= <- <- <-].
      * left. split; [reflexivity|]. exists e. auto.
      * right. split; [discriminate|reflexivity].
  - intros st title message s'. unfold Submit.abortion.
    destruct (Abortion.handleSave st now nowIso) as [t m|e] eqn:V.
    + intros [= <- <- <-]. right. split; [|reflexivity].
      unfold Abortion.handleSave in V.
      repeat match type of V with
             | context [match ?x with _ => _ end] => destruct x
             end; try discriminate V; injection V as <- _; discriminate.
    + destruct (Storage.saveAbortionEntry readOk writeOk e s) eqn:W;
        intros [= <- <- <-].
      * left. split; [reflexivity|]. exists e. auto.
      * right. split; [discriminate|reflexivity].
  - intros st title message s'. unfold Submit.harvest.
    destruct (Harvest.handleSaveHarvest st now nowIso) as [t m|e] eqn:V.
    + intros [= <- <- <-]. right. split; [|reflexivity].
      unfold Harvest.handleSaveHarvest in V.
      repeat match type of V with
             | context [match ?x with _ => _ end] => destruct x
             end; try discriminate V; injection V as <- _; discriminate.
    + destruct (Storage.saveHarvestEntry readOk writeOk e s) eqn:W;
        intros [= <- <- <-].
      * left. split; [reflexivity|]. exists e. auto.
      * right. split; [discriminate|reflexivity].
Qed.

(** ** The ledger under the entry workflows *)

Lemma sumOver_filter_snoc {A : Type} (f : A -> Z) (p : A -> bool)
    (l : list A) (x : A) :
  Ledger.sumOver f (filter p (l ++ [x]))
  = Ledger.sumOver f (filter p l) + (if p x then f x else 0).
Proof.
  induction l as [|y l IH]; simpl.
  - destruct (p x); simpl; lia.
  - destruct (p y); simpl; rewrite IH; lia.
Qed.

Lemma loadBloomEntries_In blooms abortions sel :
  In sel (Abortion.loadBloomEntries blooms abortions) ->
  In (Abortion.bloom sel) blooms
  /\ Abortion.remainingCount sel
     = BloomEntry.count (Abortion.bloom sel)
       - Ledger.totalAborted (Abortion.bloom sel) abortions
  /\ 0 < Abortion.remainingCount sel.
Proof.
  unfold Abortion.loadBloomEntries. intros Hin.
  apply filter_In in Hin as [Hin P]. apply Z.ltb_lt in P.
  apply in_map_iff in Hin as [b [<- Hb]]. simpl in *.
  unfold Ledger.totalAborted. rewrite reduceSum_sumOver in *. auto.
Qed.

Lemma fresh_find_forecast `{DateUtils} today blooms abortions harvests b :
  NoDup (map BloomEntry.id blooms) ->
  In b blooms ->
  0 < Ledger.difference b abortions harvests ->
  find (fun f => String.eqb (HarvestForecast.id f) (BloomEntry.id b))
       (Harvest.loadHarvestData today blooms abortions harvests)
  = Some (Harvest.forecastOf today abortions harvests b).
Proof.
  intros ND Hb P.
  destruct (find_first
              (fun f => String.eqb (HarvestForecast.id f) (BloomEntry.id b))
              (Harvest.loadHarvestData today blooms abortions harvests))
    as [f [F [Hf Pf]]].
  { exists (Harvest.forecastOf today abortions harvests b). split.
    - apply loadHarvestData_In. eauto.
    - apply String.eqb_refl. }
  rewrite F. f_equal.
  apply loadHarvestData_In in Hf as [b' [Hb' [-> _]]].
  apply String.eqb_eq in Pf. simpl in Pf.
  now rewrite (unique_id_bloom blooms b b' ND Hb Hb' Pf).
Qed.

(** The abortion workflow keeps the total aborted of every bloom within
    the bloom's count: when the stored blooms have distinct identifiers and
    the bound holds, it still holds after a submission made from the list
    the screen loaded from that store, whether the entry is rejected,
    saved, or lost to a failed write. The stored blooms are not touched. *)
Theorem abortion_submit_keeps_aborted_within_count :
  forall st now nowIso writeOk s sel title message s',
    NoDup (map BloomEntry.id (Storage.getBloomEntries true s)) ->
    (forall b, In b (Storage.getBloomEntries true s) ->
               Ledger.totalAborted b (Storage.getAbortionEntries true s)
               <= BloomEntry.count b) ->
    Abortion.selectedBloom st = Some sel ->
    In sel (Abortion.loadBloomEntries (Storage.getBloomEntries true s)
              (Storage.getAbortionEntries true s)) ->
    Submit.abortion st now nowIso true writeOk s = (title, message, s') ->
    Storage.getBloomEntries true s' = Storage.getBloomEntries true s
    /\ (forall b, In b (Storage.getBloomEntries true s') ->
                  Ledger.totalAborted b (Storage.getAbortionEntries true s')
                  <= BloomEntry.count b).
Proof.
  intros st now nowIso writeOk s sel title message s' ND Inv Sel Hsel.
  unfold Submit.abortion.
  destruct (Abortion.handleSave st now nowIso) as [t m|e] eqn:V.
  { intros [= _ _ <-]. auto. }
  apply abortion_persist_inv in V as [sel' [n [Sel' [_ [[Pn Ln] He]]]]].
  rewrite Sel in Sel'. injection Sel' as <-.
  destruct writeOk; cbn [Storage.saveAbortionEntry]; intros [= _ _ <-]; auto.
  split; [reflexivity|].
  intros b Hb.
  change (In b (Storage.getBloomEntries true s)) in Hb.
  change (Ledger.totalAborted b (Storage.getAbortionEntries true s ++ [e])
          <= BloomEntry.count b).
  specialize (Inv b Hb). unfold Ledger.totalAborted in *.
  rewrite sumOver_filter_snoc. rewrite He.
  cbn [AbortionEntry.bloomEntryId AbortionEntry.abortedCount].
  destruct (String.eqb_spec (BloomEntry.id (Abortion.bloom sel)) (BloomEntry.id b))
    as [E|_]; [|lia].
  apply loadBloomEntries_In in Hsel as [Hs [R _]].
  assert (Abortion.bloom sel = b)
    by (apply (unique_id_bloom (Storage.getBloomEntries true s)); auto).
  subst b. unfold Ledger.totalAborted in R. lia.
Qed.

Lemma abortion_submit_keeps_aborted_within_count_witness :
  Ledger.totalAborted (Sample.bloom "b1" 10)
    [Sample.abortion "b1" 3;
     AbortionEntry.mk "1704531600000" "2024-01-06" "b1" 7
       None None "2024-01-06T09:00:00.000Z"]
  <= BloomEntry.count (Sample.bloom "b1" 10).
Proof.
  refine (proj2
    (abortion_submit_keeps_aborted_within_count
       {| Abortion.selectedBloom :=
            Some {| Abortion.bloom := Sample.bloom "b1" 10;
                    Abortion.remainingCount := 7 |};
          Abortion.abortionDate := "2024-01-06";
          Abortion.abortedCount := "7";
          Abortion.notes := "" |}
       "1704531600000" "2024-01-06T09:00:00.000Z" true
       {| Storage.bloom_entries := Storage.Text [Sample.bloom "b1" 10];
          Storage.abortion_entries := Storage.Text [Sample.abortion "b1" 3];
          Storage.harvest_entries := Storage.Absent;
          Storage.app_settings := Storage.Absent |}
       {| Abortion.bloom := Sample.bloom "b1" 10; Abortion.remainingCount := 7 |}
       "Success" "Abortion entry saved successfully" _
       ltac:(repeat constructor; intros [])
       ltac:(intros b [<-|[]]; vm_compute; congruence)
       eq_refl
       (or_introl eq_refl)
       eq_refl)
    (Sample.bloom "b1" 10) (or_introl eq_refl)).
Defined.

(** The harvest workflow keeps count - aborted - harvested of every bloom
    at zero or above: when the stored blooms have distinct identifiers and
    the bound holds, it still holds after a submission for a bloom picked
    from the forecasts the screen loaded from that store. *)
Theorem harvest_submit_keeps_remaining_nonnegative :
  forall (D : DateUtils) today st now nowIso writeOk s b title message s',
    NoDup (map BloomEntry.id (Storage.getBloomEntries true s)) ->
    (forall b', In b' (Storage.getBloomEntries true s) ->
                0 <= Ledger.difference b' (Storage.getAbortionEntries true s)
                       (Storage.getHarvestEntries true s)) ->
    Harvest.harvestForecasts st
    = Harvest.loadHarvestData today (Storage.getBloomEntries true s)
        (Storage.getAbortionEntries true s) (Storage.getHarvestEntries true s) ->
    In b (map HarvestForecast.bloomEntry (Harvest.harvestForecasts st)) ->
    Harvest.selectedBloom st = Some b ->
    Submit.harvest st now nowIso true writeOk s = (title, message, s') ->
    forall b', In b' (Storage.getBloomEntries true s') ->
               0 <= Ledger.difference b' (Storage.getAbortionEntries true s')
                      (Storage.getHarvestEntries true s').
Proof.
  intros D today st now nowIso writeOk s b title message s' ND Inv Fresh Listed Sel.
  unfold Submit.harvest.
  destruct (Harvest.handleSaveHarvest st now nowIso) as [t m|e] eqn:V.
  { intros [= _ _ <-]. exact Inv. }
  apply harvest_persist_inv in V as [b0 [n [Sel' [_ [Pn [Ln He]]]]]].
  rewrite Sel in Sel'. injection Sel' as <-.
  destruct writeOk; cbn [Storage.saveHarvestEntry]; intros [= _ _ <-]; auto.
  intros b' Hb'.
  change (In b' (Storage.getBloomEntries true s)) in Hb'.
  change (0 <= Ledger.difference b' (Storage.getAbortionEntries true s)
                 (Storage.getHarvestEntries true s ++ [e])).
  rewrite Fresh in Listed, Ln.
  apply in_map_iff in Listed as [f [Ef Hf]].
  apply loadHarvestData_In in Hf as [b0 [Hb0 [-> P]]].
  rewrite forecastOf_bloomEntry in Ef. subst b0.
  specialize (Ln _ (fresh_find_forecast today _ _ _ b ND Hb0 P)).
  rewrite forecastOf_remaining in Ln.
  specialize (Inv b' Hb'). unfold Ledger.difference, Ledger.totalHarvested in *.
  rewrite sumOver_filter_snoc. rewrite He.
  cbn [HarvestEntry.bloomEntryId HarvestEntry.harvestedCount].
  destruct (String.eqb_spec (BloomEntry.id b) (BloomEntry.id b')) as [E|_]; [|lia].
  assert (b = b')
    by (apply (unique_id_bloom (Storage.getBloomEntries true s)); auto).
  subst b'. lia.
Qed.

Lemma harvest_submit_keeps_remaining_nonnegative_witness :
  0 <= Ledger.difference (Sample.bloom "b1" 10) [Sample.abortion "b1" 3]
         [HarvestEntry.mk "1706342400000" "2024-01-27" "b1" 7 None None
            "2024-01-27T09:00:00.000Z"].
Proof.
  refine (harvest_submit_keeps_remaining_nonnegative calendarDates "2024-01-27"
    {| Harvest.harvestForecasts :=
         Harvest.loadHarvestData "2024-01-27" [Sample.bloom "b1" 10]
           [Sample.abortion "b1" 3] [];
       Harvest.selectedBloom := Some (Sample.bloom "b1" 10);
       Harvest.harvestDate := "2024-01-27";
       Harvest.harvestedCount := "7";
       Harvest.notes := "";
       Harvest.imageUri := "" |}
    "1706342400000" "2024-01-27T09:00:00.000Z" true
    {| Storage.bloom_entries := Storage.Text [Sample.bloom "b1" 10];
       Storage.abortion_entries := Storage.Text [Sample.abortion "b1" 3];
       Storage.harvest_entries := Storage.Absent;
       Storage.app_settings := Storage.Absent |}
    (Sample.bloom "b1" 10)
    "Success" "Harvest recorded successfully" _
    ltac:(repeat constructor; intros [])
    ltac:(intros b [<-|[]]; vm_compute; congruence)
    eq_refl
    (or_introl eq_refl)
    eq_refl
    eq_refl
    (Sample.bloom "b1" 10) (or_introl eq_refl)).
Defined.

(** Tapping a listed forecast presets the count to what remains of its
    bloom, and saving the form as it then stands records exactly that
    count, after which nothing remains of the bloom. *)
Theorem preset_count_harvests_all :
  forall (D : DateUtils) today blooms abortions harvests b st now nowIso,
    NoDup (map BloomEntry.id blooms) ->
    In b blooms ->
    0 < Ledger.difference b abortions harvests ->
    Harvest.harvestForecasts st
    = Harvest.loadHarvestData today blooms abortions harvests ->
    exists e,
      Harvest.handleSaveHarvest (fst (HarvestScreen.handleSelectBloom b st))
        now nowIso = Persist e
      /\ HarvestEntry.bloomEntryId e = BloomEntry.id b
      /\ HarvestEntry.harvestedCount e = Ledger.remaining b abortions harvests
      /\ Ledger.remaining b abortions (harvests ++ [e]) = 0.
Proof.
  intros D today blooms abortions harvests b st now nowIso ND Hb P Fresh.
  unfold HarvestScreen.handleSelectBloom, Harvest.handleSaveHarvest.
  cbn [fst Harvest.selectedBloom Harvest.harvestedCount Harvest.harvestForecasts
         Harvest.harvestDate Harvest.notes Harvest.imageUri].
  rewrite Fresh, (fresh_find_forecast today blooms abortions harvests b ND Hb P).
  rewrite parseInt_showZ, forecastOf_remaining.
  destruct (Z.leb_spec (Ledger.difference b abortions harvests) 0); [lia|].
  rewrite Z.ltb_irrefl.
  eexists. split; [reflexivity|]. cbn [HarvestEntry.bloomEntryId
                                       HarvestEntry.harvestedCount].
  split; [reflexivity|]. unfold Ledger.remaining. split; [lia|].
  unfold Ledger.difference, Ledger.totalHarvested in *.
  rewrite sumOver_filter_snoc.
  cbn [HarvestEntry.bloomEntryId HarvestEntry.harvestedCount].
  rewrite String.eqb_refl. lia.
Qed.

Lemma preset_count_harvests_all_witness :
  exists e,
    Harvest.handleSaveHarvest
      (fst (HarvestScreen.handleSelectBloom (Sample.bloom "b1" 10)
              {| Harvest.harvestForecasts :=
                   Harvest.loadHarvestData "2024-01-27" [Sample.bloom "b1" 10]
                     [Sample.abortion "b1" 3] [];
                 Harvest.selectedBloom := None;
                 Harvest.harvestDate := "2024-01-27";
                 Harvest.harvestedCount := "";
                 Harvest.notes := "";
                 Harvest.imageUri := "" |}))
      "1706342400000" "2024-01-27T09:00:00.000Z" = Persist e
    /\ HarvestEntry.harvestedCount e = 7.
Proof.
  destruct (preset_count_harvests_all calendarDates "2024-01-27"
              [Sample.bloom "b1" 10] [Sample.abortion "b1" 3] []
              (Sample.bloom "b1" 10)
              {| Harvest.harvestForecasts :=
                   Harvest.loadHarvestData "2024-01-27" [Sample.bloom "b1" 10]
                     [Sample.abortion "b1" 3] [];
                 Harvest.selectedBloom := None;
                 Harvest.harvestDate := "2024-01-27";
                 Harvest.harvestedCount := "";
                 Harvest.notes := "";
                 Harvest.imageUri := "" |}
              "1706342400000" "2024-01-27T09:00:00.000Z"
              ltac:(repeat constructor; intros [])
              (or_introl eq_refl) eq_refl eq_refl)
    as [e [S [_ [C _]]]].
  exists e. split; [exact S|exact C].
Defined.

(** ** The sections of the harvest screen *)

Lemma filter_none {A : Type} (p : A -> bool) (l : list A) :
  (forall x, In x l -> p x = false) ->
  filter p l = [] /\ filter (fun x => negb (p x)) l = l.
Proof.
  induction l as [|x l IH]; intros N; simpl; [auto|].
  rewrite (N x (or_introl eq_refl)). simpl.
  destruct IH as [E1 E2]; [intros y Hy; apply N; now right|].
  split; [exact E1|now rewrite E2].
Qed.

Lemma sorted_split {A : Type} (R : A -> A -> Prop) (p : A -> bool) (l : list A) :
  StronglySorted R l ->
  (forall a b, In a l -> In b l -> R a b -> p b = true -> p a = true) ->
  l = (filter p l ++ filter (fun x => negb (p x)) l)%list.
Proof.
  induction 1 as [|a l S IH F]; intros M; [reflexivity|].
  simpl. destruct (p a) eqn:Pa; simpl.
  - f_equal. apply IH. intros x y Hx Hy. apply M; now right.
  - destruct (filter_none p l) as [E1 E2].
    { intros y Hy. destruct (p y) eqn:Py; [|reflexivity].
      rewrite Forall_forall in F.
      rewrite (M a y (or_introl eq_refl) (or_intror Hy) (F y Hy) Py) in Pa.
      discriminate. }
    now rewrite E1, E2.
Qed.

Lemma filter_sorted {A : Type} (R : A -> A -> Prop) (p : A -> bool) (l : list A) :
  StronglySorted R l -> StronglySorted R (filter p l).
Proof.
  induction 1 as [|a l S IH F]; simpl; [constructor|].
  destruct (p a); [|exact IH].
  constructor; [exact IH|].
  rewrite Forall_forall in *. intros x Hx. apply F.
  now apply filter_In in Hx as [Hx _].
Qed.

Lemma filter_twice {A : Type} (p q : A -> bool) (l : list A) :
  filter q (filter p l) = filter (fun x => andb (p x) (q x)) l.
Proof.
  induction l as [|x l IH]; simpl; [reflexivity|].
  destruct (p x); simpl; [destruct (q x)|]; now rewrite IH.
Qed.

Lemma loadHarvestData_sorted `{DateUtils} today blooms abortions harvests :
  StronglySorted Ledger.inPolicyOrder
    (Harvest.loadHarvestData today blooms abortions harvests).
Proof.
  unfold Harvest.loadHarvestData.
  eapply StronglySorted_impl;
    [|apply sort_sorted; [apply compareForecasts_total|apply compareForecasts_trans]].
  intros a b. apply compareForecasts_policy.
Qed.

Lemma ready_forecast_has_no_days `{DateUtils} today blooms abortions harvests f :
  daysBetween today today = 0 ->
  In f (Harvest.loadHarvestData today blooms abortions harvests) ->
  HarvestForecast.isReadyToday f = true ->
  HarvestForecast.daysUntilHarvest f = 0.
Proof.
  intros Z0 Hf. apply loadHarvestData_In in Hf as [b [_ [-> _]]].
  unfold Harvest.forecastOf. simpl. intros E. apply String.eqb_eq in E.
  rewrite E, Z0. now destruct (string_geb today today).
Qed.

(** When the day difference of a date with itself is zero, the forecast
    list is, one after the other: the list [readyToday], the list
    [overdue], the forecasts that are not ready today and yet zero days
    away, the ten rows at most that the Upcoming card renders, and the rest
    of the list [upcoming]. So no forecast is rendered twice, and the
    forecasts rendered in no card are the zero-day ones that are not ready
    and the upcoming ones past the tenth. *)
Theorem forecast_sections_in_order :
  forall (D : DateUtils) today blooms abortions harvests,
    daysBetween today today = 0 ->
    Harvest.loadHarvestData today blooms abortions harvests
    = (HarvestScreen.readyToday
         (Harvest.loadHarvestData today blooms abortions harvests)
       ++ HarvestScreen.overdue
            (Harvest.loadHarvestData today blooms abortions harvests)
       ++ filter (fun f => andb (negb (HarvestForecast.isReadyToday f))
                                (HarvestForecast.daysUntilHarvest f =? 0))
            (Harvest.loadHarvestData today blooms abortions harvests)
       ++ HarvestScreen.upcomingShown
            (Harvest.loadHarvestData today blooms abortions harvests)
       ++ skipn 10
            (HarvestScreen.upcoming
               (Harvest.loadHarvestData today blooms abortions harvests)))%list
    /\ (List.length
          (HarvestScreen.upcomingShown
             (Harvest.loadHarvestData today blooms abortions harvests))
        <= 10)%nat.
Proof.
  intros D today blooms abortions harvests Z0.
  split; [|apply firstn_le_length].
  set (l := Harvest.loadHarvestData today blooms abortions harvests).
  assert (StronglySorted Ledger.inPolicyOrder l) as S
    by apply loadHarvestData_sorted.
  assert (forall f, In f l -> HarvestForecast.isReadyToday f = true ->
                    HarvestForecast.daysUntilHarvest f = 0) as RZ
    by (intros f; apply ready_forecast_has_no_days; exact Z0).
  set (late := fun f => HarvestForecast.daysUntilHarvest f <? 0).
  set (zero := fun f => HarvestForecast.daysUntilHarvest f =? 0).
  set (notReady := fun f => negb (HarvestForecast.isReadyToday f)).
  assert (l = (filter HarvestForecast.isReadyToday l ++ filter notReady l)%list)
    as E1.
  { apply (sorted_split _ _ _ S). intros a b _ _ [[Ra _]|[Eq _]] Rb; congruence. }
  assert (filter notReady l
          = (filter late (filter notReady l)
             ++ filter (fun f => negb (late f)) (filter notReady l))%list) as E2.
  { apply (sorted_split _ _ _ (filter_sorted _ notReady _ S)).
    intros a b Ha Hb. apply filter_In in Ha as [_ Na], Hb as [_ Nb].
    unfold notReady, late in *. apply negb_true_iff in Na, Nb.
    intros [[Ra _]|[_ Le]] Lb; [congruence|].
    apply Z.ltb_lt in Lb. apply Z.ltb_lt. lia. }
  assert (filter (fun f => negb (late f)) (filter notReady l)
          = (filter zero (filter (fun f => negb (late f)) (filter notReady l))
             ++ filter (fun f => negb (zero f))
                  (filter (fun f => negb (late f)) (filter notReady l)))%list)
    as E3.
  { apply (sorted_split _ _ _
             (filter_sorted _ _ _ (filter_sorted _ notReady _ S))).
    intros a b Ha Hb.
    apply filter_In in Ha as [Ha La], Hb as [Hb Lb].
    apply filter_In in Ha as [_ Na], Hb as [_ Nb].
    unfold notReady, late, zero in *.
    apply negb_true_iff in Na, Nb, La, Lb. apply Z.ltb_ge in La, Lb.
    intros [[Ra _]|[_ Le]] Zb; [congruence|].
    apply Z.eqb_eq in Zb. apply Z.eqb_eq. lia. }
  assert (filter late (filter notReady l) = HarvestScreen.overdue l) as Eo.
  { unfold HarvestScreen.overdue. rewrite filter_twice.
    apply filter_ext_in. intros f Hf. specialize (RZ f Hf).
    unfold notReady, late.
    destruct (HarvestForecast.isReadyToday f); simpl; [|reflexivity].
    now rewrite (RZ eq_refl). }
  assert (filter zero (filter (fun f => negb (late f)) (filter notReady l))
          = filter (fun f => andb (negb (HarvestForecast.isReadyToday f))
                                  (HarvestForecast.daysUntilHarvest f =? 0)) l)
    as Ez.
  { rewrite !filter_twice. apply filter_ext_in. intros f _.
    unfold notReady, late, zero.
    destruct (HarvestForecast.isReadyToday f); simpl; [reflexivity|].
    destruct (Z.ltb_spec (HarvestForecast.daysUntilHarvest f) 0),
      (Z.eqb_spec (HarvestForecast.daysUntilHarvest f) 0); simpl;
      try reflexivity; lia. }
  assert (filter (fun f => negb (zero f))
            (filter (fun f => negb (late f)) (filter notReady l))
          = HarvestScreen.upcoming l) as Eu.
  { unfold HarvestScreen.upcoming. rewrite !filter_twice.
    apply filter_ext_in. intros f Hf. specialize (RZ f Hf).
    unfold notReady, late, zero.
    destruct (HarvestForecast.isReadyToday f); simpl;
      [now rewrite (RZ eq_refl)|].
    destruct (Z.ltb_spec (HarvestForecast.daysUntilHarvest f) 0),
      (Z.eqb_spec (HarvestForecast.daysUntilHarvest f) 0),
      (Z.ltb_spec 0 (HarvestForecast.daysUntilHarvest f)); simpl;
      try reflexivity; lia. }
  rewrite Eo in E2. rewrite Ez, Eu in E3. rewrite E3 in E2. rewrite E2 in E1.
  unfold HarvestScreen.upcomingShown, slice0. rewrite firstn_skipn.
  exact E1.
Qed.

Lemma forecast_sections_in_order_witness :
  daysBetween "2024-02-01" "2024-02-01" = 0
  /\ List.length
       (Harvest.loadHarvestData "2024-02-01"
          [Sample.bloom "b1" 10;
           BloomEntry.mk "b2" "2024-01-06" "N11B" White 5 26 None None
             "2024-01-06T08:00:00.000Z";
           BloomEntry.mk "b3" "2024-01-10" "N11C" Red 3 26 None None
             "2024-01-10T08:00:00.000Z"] [] [])
     = 3%nat.
Proof.
  split; [reflexivity|].
  rewrite (proj1 (forecast_sections_in_order calendarDates "2024-02-01"
                    [Sample.bloom "b1" 10;
                     BloomEntry.mk "b2" "2024-01-06" "N11B" White 5 26 None None
                       "2024-01-06T08:00:00.000Z";
                     BloomEntry.mk "b3" "2024-01-10" "N11C" Red 3 26 None None
                       "2024-01-10T08:00:00.000Z"] [] [] eq_refl)).
  reflexivity.
Defined.

(** ** Looking up the catalog *)

Lemma find_by_unique_key {A : Type} (key : A -> string) (l : list A) (x : A) :
  NoDup (map key l) -> In x l ->
  find (fun y => String.eqb (key y) (key x)) l = Some x.
Proof.
  induction l as [|y l IH]; simpl; [contradiction|].
  intros ND Hin. inversion ND as [|? ? Hy ND']; subst.
  destruct (String.eqb_spec (key y) (key x)) as [E|N].
  - destruct Hin as [->|Hin]; [reflexivity|].
    exfalso. apply Hy. rewrite E. now apply in_map.
  - destruct Hin as [->|Hin]; [congruence|]. now apply IH.
Qed.

(** [getLocationById] finds every catalog location under its own
    identifier, returns only a catalog location carrying the identifier
    asked for, and returns nothing exactly for an identifier that no
    catalog location has; the display names of the catalog are pairwise
    distinct too. *)
Theorem catalog_lookup_by_id :
  (forall l, In l FarmLocations.getAllFarmLocations ->
             FarmLocations.getLocationById (FarmLocation.id l) = Some l)
  /\ (forall id l, FarmLocations.getLocationById id = Some l ->
                   In l FarmLocations.getAllFarmLocations
                   /\ FarmLocation.id l = id)
  /\ (forall id, FarmLocations.getLocationById id = None
                 <-> ~ In id (map FarmLocation.id
                                FarmLocations.getAllFarmLocations))
  /\ NoDup (map FarmLocation.name FarmLocations.getAllFarmLocations).
Proof.
  unfold FarmLocations.getLocationById. split; [|split; [|split; [split|]]].
  - intros l Hl. apply (find_by_unique_key FarmLocation.id); [|exact Hl].
    apply distinctb_NoDup. vm_compute. reflexivity.
  - intros id l F. apply find_some in F as [Hl E].
    apply String.eqb_eq in E. auto.
  - intros F Hin. apply in_map_iff in Hin as [l [E Hl]].
    generalize (find_none _ _ F l Hl). rewrite E, String.eqb_refl. discriminate.
  - intros N. destruct (find _ FarmLocations.getAllFarmLocations) as [l|] eqn:F;
      [|reflexivity].
    apply find_some in F as [Hl E]. apply String.eqb_eq in E.
    exfalso. apply N. rewrite <- E. now apply in_map.
  - apply distinctb_NoDup. vm_compute. reflexivity.
Qed.

(** ** History *)

(** The history list holds every stored bloom and then every stored
    abortion, once each and in stored order. An abortion carries the first
    bloom with the identifier it refers to, the bloom the analytics join
    uses, and carries none exactly when no stored bloom has that
    identifier: orphaned abortions are listed, not dropped. *)
Theorem history_lists_every_entry :
  forall blooms abortions,
    List.length (History.loadHistoryData blooms abortions)
    = (List.length blooms + List.length abortions)%nat
    /\ (forall b, In (History.BloomItem b) (History.loadHistoryData blooms abortions)
                  <-> In b blooms)
    /\ (forall a related,
           In (History.AbortionItem a related)
              (History.loadHistoryData blooms abortions)
           <-> In a abortions /\ related = Groups.resolve blooms a)
    /\ (forall a, In a abortions ->
                  In (History.AbortionItem a None)
                     (History.loadHistoryData blooms abortions)
                  <-> (forall b, In b blooms ->
                                 BloomEntry.id b <> AbortionEntry.bloomEntryId a))
    /\ (forall a b,
           In (History.AbortionItem a (Some b))
              (History.loadHistoryData blooms abortions) ->
           In b blooms /\ BloomEntry.id b = AbortionEntry.bloomEntryId a).
Proof.
  intros blooms abortions. unfold History.loadHistoryData.
  assert (forall a related,
            In (History.AbortionItem a related)
               (map History.BloomItem blooms
                ++ map (fun abortion =>
                          History.AbortionItem abortion
                            (find (fun bloom =>
                                     String.eqb (BloomEntry.id bloom)
                                       (AbortionEntry.bloomEntryId abortion))
                                  blooms)) abortions)%list
            <-> In a abortions /\ related = Groups.resolve blooms a) as Ab.
  { intros a related. rewrite in_app_iff, !in_map_iff. split.
    - intros [[b [C _]]|[a' [[= -> <-] Ha]]]; [discriminate|]. auto.
    - intros [Ha ->]. right. exists a. auto. }
  split; [|split; [|split; [|split]]].
  - now rewrite length_app, !length_map.
  - intros b. rewrite in_app_iff, !in_map_iff. split.
    + intros [[b' [[= ->] Hb]]|[a [C _]]]; [exact Hb|discriminate].
    + intros Hb. left. now exists b.
  - exact Ab.
  - intros a Ha. rewrite Ab. unfold Groups.resolve. split.
    + intros [_ N] b Hb E. symmetry in N.
      generalize (find_none _ _ N b Hb). rewrite E, String.eqb_refl. discriminate.
    + intros N. split; [exact Ha|].
      destruct (find _ blooms) as [b|] eqn:F; [|reflexivity].
      apply find_some in F as [Hb E]. apply String.eqb_eq in E.
      now destruct (N b Hb).
  - intros a b Hin. apply Ab in Hin as [_ R]. unfold Groups.resolve in R.
    symmetry in R. apply find_some in R as [Hb E].
    apply String.eqb_eq in E. auto.
Qed.

(** ** The harvest chart *)

Lemma count_once (d : string) (ts : list string) (v : Z) :
  NoDup ts ->
  Ledger.sumOver (fun t => if String.eqb d t then v else 0) ts
  = if existsb (String.eqb d) ts then v else 0.
Proof.
  induction ts as [|t ts IH]; intros ND; simpl; [reflexivity|].
  inversion ND as [|? ? Ht ND']; subst. rewrite (IH ND').
  destruct (String.eqb_spec d t) as [->|N]; simpl; [|lia].
  destruct (existsb (String.eqb t) ts) eqn:X; [|lia].
  apply existsb_exists in X as [t' [Ht' E]]. apply String.eqb_eq in E.
  subst t'. contradiction.
Qed.

Lemma sumOver_add {A : Type} (f1 f2 f3 : A -> Z) (u : list A) :
  (forall t, f1 t = f2 t + f3 t) ->
  Ledger.sumOver f1 u = Ledger.sumOver f2 u + Ledger.sumOver f3 u.
Proof.
  intros E. induction u as [|t u IHu]; simpl; [reflexivity|].
  rewrite IHu, E. lia.
Qed.

Lemma sum_by_date_once {A : Type} (date : A -> string) (g : A -> Z)
    (ts : list string) (l : list A) :
  NoDup ts ->
  Ledger.sumOver
    (fun t => Ledger.sumOver g (filter (fun x => String.eqb (date x) t) l)) ts
  = Ledger.sumOver g (filter (fun x => existsb (String.eqb (date x)) ts) l).
Proof.
  intros ND. induction l as [|x l IH].
  - simpl. clear ND. induction ts as [|t ts IHt]; simpl; [reflexivity|].
    now rewrite IHt.
  - rewrite (sumOver_add _
               (fun t => if String.eqb (date x) t then g x else 0)
               (fun t => Ledger.sumOver g
                           (filter (fun y => String.eqb (date y) t) l))).
    + rewrite IH, (count_once _ ts _ ND). simpl.
      destruct (existsb (String.eqb (date x)) ts); simpl; lia.
    + intros t. simpl. destruct (String.eqb (date x) t); simpl; lia.
Qed.

Lemma sumOver_map {A B : Type} (f : B -> Z) (h : A -> B) (l : list A) :
  Ledger.sumOver (fun x => f (h x)) l = Ledger.sumOver f (map h l).
Proof. induction l as [|x l IH]; simpl; [reflexivity|now rewrite IH]. Qed.

Section ChartFacts.
Context `{DateUtils}.
Variable formatDisplayDate : string -> string.
Variable now : JsDate.

Lemma expectedHarvests_sum target blooms abortions :
  Chart.expectedHarvests target blooms abortions
  = Ledger.sumOver
      (fun b => BloomEntry.count b - Ledger.totalAborted b abortions)
      (filter (fun b => String.eqb (Ledger.expectedDate b) target) blooms).
Proof.
  unfold Chart.expectedHarvests. rewrite fold_left_sum_acc. simpl.
  apply sumOver_ext_in. intros b _.
  unfold Ledger.totalAborted. now rewrite fold_left_sum_acc.
Qed.

(** The chart has one bar per day of the chosen range, and a bar shows,
    for the blooms expected on its date, the sum of count minus aborted
    (harvests are not subtracted). When the dates of the bars are pairwise
    distinct, every bloom expected within the range is counted in exactly
    one bar and every other bloom in none: the bars add up to the sum over
    the blooms expected on one of the dates. *)
Theorem chart_counts_each_bloom_once :
  forall timeRange days blooms abortions,
    parseInt timeRange = Some days ->
    NoDup (map (Chart.targetDate now) (seq 0 (Z.to_nat days))) ->
    List.length (Chart.harvestForecast formatDisplayDate now timeRange
                   blooms abortions) = Z.to_nat days
    /\ map ChartData.y
         (Chart.harvestForecast formatDisplayDate now timeRange blooms abortions)
       = map (fun i =>
                inject_Z
                  (Ledger.sumOver
                     (fun b => BloomEntry.count b - Ledger.totalAborted b abortions)
                     (filter (fun b => String.eqb (Ledger.expectedDate b)
                                                  (Chart.targetDate now i))
                             blooms)))
             (seq 0 (Z.to_nat days))
    /\ Ledger.sumOver
         (fun i => Chart.expectedHarvests (Chart.targetDate now i) blooms abortions)
         (seq 0 (Z.to_nat days))
       = Ledger.sumOver
           (fun b => BloomEntry.count b - Ledger.totalAborted b abortions)
           (filter (fun b =>
                      existsb (String.eqb (Ledger.expectedDate b))
                        (map (Chart.targetDate now) (seq 0 (Z.to_nat days))))
                   blooms).
Proof.
  intros timeRange days blooms abortions P ND.
  unfold Chart.harvestForecast. rewrite P. split; [|split].
  - now rewrite length_map, length_seq.
  - rewrite map_map. apply map_ext. intros i. simpl.
    now rewrite expectedHarvests_sum.
  - rewrite <- (sum_by_date_once Ledger.expectedDate _ _ blooms ND).
    rewrite <- sumOver_map. apply sumOver_ext_in. intros i _.
    apply expectedHarvests_sum.
Qed.
End ChartFacts.

Lemma chart_counts_each_bloom_once_witness :
  List.length
    (Chart.harvestForecast (fun s => s) (newDate "2024-01-25") "7"
       [Sample.bloom "b1" 10] [Sample.abortion "b1" 3])
  = Z.to_nat 7.
Proof.
  refine (proj1 (chart_counts_each_bloom_once (H := calendarDates)
                   (fun s => s) (newDate "2024-01-25") "7" 7
                   [Sample.bloom "b1" 10] [Sample.abortion "b1" 3]
                   eq_refl _)).
  apply distinctb_NoDup. vm_compute. reflexivity.
Defined.

Example chart_for_a_week :
  map (fun c => (ChartData.x c, ChartData.y c))
    (Chart.harvestForecast (fun s => s) (newDate "2024-01-25") "3"
       [Sample.bloom "b1" 10] [Sample.abortion "b1" 3])
  = [("2024-01-25", inject_Z 0); ("2024-01-26", inject_Z 0);
     ("2024-01-27", inject_Z 7)].
Proof. vm_compute. reflexivity. Qed.

(** ** From the settings screen to the bloom form *)

(** The maturity period typed in the settings is never kept as zero: text
    that holds no number, and zero, become 26. Once saved, it is what the
    bloom form starts from, together with the default variety: a positive
    period is the period of the bloom saved from the untouched form, and a
    negative one, which the settings accept, makes the bloom form refuse
    to save until the period is edited. *)
Theorem settings_maturity_reaches_bloom_form :
  forall value settings s s' form now nowIso countNum,
    Storage.saveSettings true (SettingsScreen.onChangeMaturity value settings) s
    = Some s' ->
    Bloom.location form <> "" ->
    parseInt (Bloom.count form) = Some countNum ->
    0 < countNum ->
    Storage.maturityPeriodDays (Storage.getSettings true s')
    = match parseInt value with
      | Some n => if n =? 0 then 26 else n
      | None => 26
      end
    /\ Storage.maturityPeriodDays (Storage.getSettings true s') <> 0
    /\ (0 < Storage.maturityPeriodDays (Storage.getSettings true s') ->
        exists e,
          Bloom.handleSave
            (Bloom.loadDefaultSettings (Storage.getSettings true s') form)
            now nowIso = Persist e
          /\ BloomEntry.maturityPeriodDays e
             = Storage.maturityPeriodDays (Storage.getSettings true s')
          /\ BloomEntry.variety e = Storage.defaultVariety settings
          /\ BloomEntry.count e = countNum)
    /\ (Storage.maturityPeriodDays (Storage.getSettings true s') < 0 ->
        Bloom.handleSave
          (Bloom.loadDefaultSettings (Storage.getSettings true s') form)
          now nowIso
        = Alerted "Validation Error" "Please enter a valid maturity period").
Proof.
  intros value settings s s' form now nowIso c Sv L C P.
  injection Sv as <-.
  assert (Storage.getSettings true
            {| Storage.bloom_entries := Storage.bloom_entries s;
               Storage.abortion_entries := Storage.abortion_entries s;
               Storage.harvest_entries := Storage.harvest_entries s;
               Storage.app_settings :=
                 Storage.Text
                   (Storage.stringifySettings
                      (SettingsScreen.onChangeMaturity value settings)) |}
          = SettingsScreen.onChangeMaturity value settings) as G.
  { unfold Storage.getSettings. simpl.
    destruct settings as [v d [l|] n]; reflexivity. }
  rewrite G. clear G.
  set (days := match parseInt value with
               | Some n => if n =? 0 then 26 else n
               | None => 26
               end).
  assert (Storage.maturityPeriodDays
            (SettingsScreen.onChangeMaturity value settings) = days) as Ed
    by reflexivity.
  rewrite Ed.
  assert (days <> 0) as NZ.
  { unfold days. destruct (parseInt value) as [n|]; [|discriminate].
    destruct (Z.eqb_spec n 0); [discriminate|assumption]. }
  assert (forall e,
            Bloom.handleSave
              (Bloom.loadDefaultSettings
                 (SettingsScreen.onChangeMaturity value settings) form)
              now nowIso = e ->
            e = if days <=? 0
                then Alerted "Validation Error"
                       "Please enter a valid maturity period"
                else Persist
                       {| BloomEntry.id := now;
                          BloomEntry.date := Bloom.date form;
                          BloomEntry.location := Bloom.location form;
                          BloomEntry.variety := Storage.defaultVariety settings;
                          BloomEntry.count := c;
                          BloomEntry.maturityPeriodDays := days;
                          BloomEntry.imageUri := orUndefined (Bloom.imageUri form);
                          BloomEntry.notes := orUndefined (Bloom.notes form);
                          BloomEntry.createdAt := nowIso |}) as Hs.
  { intros e <-. unfold Bloom.handleSave, Bloom.loadDefaultSettings.
    cbn [Bloom.location Bloom.count Bloom.maturityPeriodDays Bloom.date
           Bloom.variety Bloom.imageUri Bloom.notes].
    destruct (String.eqb_spec (Bloom.location form) ""); [contradiction|].
    rewrite C. destruct (Z.leb_spec c 0); [lia|].
    rewrite Ed, parseInt_showZ. reflexivity. }
  repeat split; auto.
  - intros Pd. rewrite (Hs _ eq_refl).
    destruct (Z.leb_spec days 0); [lia|]. eexists. repeat split.
  - intros Nd. rewrite (Hs _ eq_refl).
    destruct (Z.leb_spec days 0); [reflexivity|lia].
Qed.

Lemma settings_maturity_reaches_bloom_form_witness :
  Storage.maturityPeriodDays
    (Storage.getSettings true
       {| Storage.bloom_entries := Storage.Absent;
          Storage.abortion_entries := Storage.Absent;
          Storage.harvest_entries := Storage.Absent;
          Storage.app_settings :=
            Storage.Text
              (Storage.stringifySettings
                 (SettingsScreen.onChangeMaturity "30" Storage.defaultSettings)) |})
  = 30.
Proof.
  refine (proj1 (settings_maturity_reaches_bloom_form "30" Storage.defaultSettings
                   {| Storage.bloom_entries := Storage.Absent;
                      Storage.abortion_entries := Storage.Absent;
                      Storage.harvest_entries := Storage.Absent;
                      Storage.app_settings := Storage.Absent |}
                   _
                   {| Bloom.date := "2024-01-01";
                      Bloom.locationType := Greenhouse;
                      Bloom.location := "N11A";
                      Bloom.variety := White;
                      Bloom.count := "3";
                      Bloom.maturityPeriodDays := "26";
                      Bloom.notes := "";
                      Bloom.imageUri := "" |}
                   "1704096000000" "2024-01-01T08:00:00.000Z" 3
                   eq_refl _ eq_refl eq_refl)).
  discriminate.
Defined.

(** ** Nothing lost, nothing twice *)

Lemma NoDup_map_filter {A B : Type} (k : A -> B) (p : A -> bool) (l : list A) :
  NoDup (map k l) -> NoDup (map k (filter p l)).
Proof.
  induction l as [|x l IH]; simpl; intros ND; [constructor|].
  inversion ND as [|? ? Hx ND']; subst.
  destruct (p x); simpl; [|now apply IH].
  constructor; [|now apply IH].
  intros Hin. apply Hx. apply in_map_iff in Hin as [y [E Hy]].
  apply filter_In in Hy as [Hy _]. rewrite <- E. now apply in_map.
Qed.

Lemma sorted_app_order {A : Type} (R : A -> A -> Prop) (l1 l2 : list A) :
  StronglySorted R (l1 ++ l2) ->
  forall a b, In a l1 -> In b l2 -> R a b.
Proof.
  induction l1 as [|x l1 IH]; simpl; intros S a b Ha Hb; [contradiction|].
  inversion S as [|? ? S' F]; subst.
  destruct Ha as [->|Ha]; [|now apply IH].
  rewrite Forall_forall in F. apply F. apply in_or_app. now right.
Qed.

(** The forecast list is a rearrangement of the forecasts of exactly the
    blooms with something remaining: each such bloom is listed once, no
    other bloom is, and when the stored blooms have distinct identifiers so
    have the listed forecasts. *)
Theorem forecast_list_is_complete :
  forall (D : DateUtils) today blooms abortions harvests,
    Permutation
      (Harvest.loadHarvestData today blooms abortions harvests)
      (map (Harvest.forecastOf today abortions harvests)
         (filter (fun b => 0 <? Ledger.difference b abortions harvests) blooms))
    /\ List.length (Harvest.loadHarvestData today blooms abortions harvests)
       = List.length
           (filter (fun b => 0 <? Ledger.difference b abortions harvests) blooms)
    /\ (NoDup (map BloomEntry.id blooms) ->
        NoDup (map HarvestForecast.id
                 (Harvest.loadHarvestData today blooms abortions harvests))).
Proof.
  intros D today blooms abortions harvests.
  assert (Permutation
            (Harvest.loadHarvestData today blooms abortions harvests)
            (map (Harvest.forecastOf today abortions harvests)
               (filter (fun b => 0 <? Ledger.difference b abortions harvests)
                       blooms))) as P.
  { unfold Harvest.loadHarvestData. rewrite sort_perm, filter_map_swap.
    apply Permutation_map.
    rewrite (filter_ext _ (fun b => 0 <? Ledger.difference b abortions harvests));
      [reflexivity|].
    intros b. now rewrite forecastOf_remaining. }
  split; [exact P|split].
  - now rewrite (Permutation_length P), length_map.
  - intros ND.
    apply (Permutation_NoDup (Permutation_map HarvestForecast.id (Permutation_sym P))).
    rewrite map_map. simpl. now apply NoDup_map_filter.
Qed.

(** The view by location has at most ten rows, no location twice, and
    they are the top of the ranking: a group with flowers bloomed that is
    not shown has a rate no higher than any row shown. *)
Theorem location_view_is_the_top :
  forall blooms abortions,
    (List.length (Analytics.locationRates blooms abortions) <= 10)%nat
    /\ NoDup (map AbortionRateData.location
                (Analytics.locationRates blooms abortions))
    /\ (forall g shown,
           0 < Groups.totalBloomed BloomEntry.location g blooms ->
           ~ In g (map AbortionRateData.location
                     (Analytics.locationRates blooms abortions)) ->
           In shown (Analytics.locationRates blooms abortions) ->
           (Analytics.rateOf (Groups.stats BloomEntry.location g blooms abortions)
            <= AbortionRateData.rate shown)%Q).
Proof.
  intros blooms abortions. unfold Analytics.locationRates, slice0.
  set (kept := filter (fun item => 0 <? AbortionRateData.total item)
                 (map Analytics.locationItem
                    (Analytics.locationStats blooms abortions))).
  set (ranked := sort Analytics.compareLocationRates kept).
  assert (NoDup (map AbortionRateData.location ranked)) as ND.
  { apply (Permutation_NoDup
             (Permutation_map AbortionRateData.location
                (Permutation_sym (sort_perm Analytics.compareLocationRates kept)))).
    unfold kept. rewrite filter_map_swap, map_map.
    rewrite (map_ext _ fst) by (intros [k v]; reflexivity).
    apply NoDup_map_filter.
    apply (groupStats_facts BloomEntry.location "" blooms abortions). }
  assert (StronglySorted
            (fun a b => (AbortionRateData.rate b <= AbortionRateData.rate a)%Q)
            ranked) as S
    by apply (sort_descending AbortionRateData.rate).
  rewrite <- (firstn_skipn 10 ranked) in ND, S.
  split; [apply firstn_le_length|]. split.
  - rewrite map_app in ND. now apply NoDup_app_remove_r in ND.
  - intros g shown T Hid Hshown.
    set (item := Analytics.locationItem
                   (g, Groups.stats BloomEntry.location g blooms abortions)).
    assert (In item ranked) as Hitem.
    { apply sort_In. unfold kept, Analytics.locationStats.
      apply kept_entries. exists g. repeat split.
      - now apply totalBloomed_positive_isGroup.
      - simpl. now apply Z.ltb_lt. }
    rewrite <- (firstn_skipn 10 ranked) in Hitem.
    apply in_app_or in Hitem as [Hin|Hin].
    + exfalso. apply Hid. apply (in_map AbortionRateData.location) in Hin.
      exact Hin.
    + exact (sorted_app_order _ _ _ S shown item Hshown Hin).
Qed.

(** ** The dashboard as shipped *)

(** [getHarvestEntries] is not among the imports of [index.tsx], so the
    loader stops at its call and leaves the state as it found it. *)
Lemma loadDashboardData_leaves_state `{DateUtils} (getTime : JsDate -> Z)
    st today now blooms abortions :
  DashboardPage.loadDashboardData getTime st today now blooms abortions = st.
Proof. reflexivity. Qed.

(** C2. [totalActiveBlooms] is not the sum of [remaining] over the blooms.
    The loader throws at the call of the unimported [getHarvestEntries]
    before any counter is computed, so for one bloom of 10 with nothing
    aborted or harvested the counter keeps its initial 0 where the sum of
    [remaining] is 10. And the [reduce] it would reach subtracts abortions
    only: with 7 of the 10 harvested it gives 10 where [remaining] is 3. *)
Theorem dashboard_totalActiveBlooms_not_set :
  DashboardStats.totalActiveBlooms
    (DashboardPage.stats
       (DashboardPage.loadDashboardData
          (fun date => match date with Some day => day * 86400000 | None => 0 end)
          DashboardPage.initialState "2024-01-10" (newDate "2024-01-10")
          [Sample.bloom "b1" 10] []))
  = 0
  /\ Ledger.totalRemaining [Sample.bloom "b1" 10] [] [] = 10
  /\ Dashboard.totalActiveBlooms [Sample.bloom "b1" 10] [] = 10
  /\ Ledger.totalRemaining [Sample.bloom "b1" 10] [] [Sample.harvest "b1" 7] = 3.
Proof. repeat split. Qed.

(** C8. [readyToHarvestToday] is not the number of blooms expected today.
    The loader throws at the call of the unimported [getHarvestEntries]
    before the counter is computed, so for one bloom expected on
    2024-01-27 and loaded on that day the counter stays undefined, where
    the number of blooms expected today, which the [filter] of the loader
    would have counted, is 1. *)
Theorem dashboard_readyToHarvestToday_not_set :
  DashboardStats.readyToHarvestToday
    (DashboardPage.stats
       (DashboardPage.loadDashboardData
          (fun date => match date with Some day => day * 86400000 | None => 0 end)
          DashboardPage.initialState "2024-01-27" (newDate "2024-01-27")
          [Sample.bloom "b1" 10] []))
  = None
  /\ Ledger.countWhere
       (fun b => String.eqb (Ledger.expectedDate b) "2024-01-27")
       [Sample.bloom "b1" 10] = 1
  /\ Dashboard.readyToHarvestToday "2024-01-27" [Sample.bloom "b1" 10] = 1.
Proof. repeat split. Qed.

(** For a selected bloom without a listed forecast the harvest form has
    nothing to compare the count with: a bloom of 10, all harvested, takes
    a further harvest of 4. *)
Example harvest_unlisted_bloom_is_not_checked :
  Harvest.loadHarvestData "2024-01-28" [Sample.bloom "b1" 10] []
    [Sample.harvest "b1" 10] = []
  /\ exists e,
       Harvest.handleSaveHarvest
         {| Harvest.harvestForecasts :=
              Harvest.loadHarvestData "2024-01-28" [Sample.bloom "b1" 10] []
                [Sample.harvest "b1" 10];
            Harvest.selectedBloom := Some (Sample.bloom "b1" 10);
            Harvest.harvestDate := "2024-01-28";
            Harvest.harvestedCount := "4";
            Harvest.notes := "";
            Harvest.imageUri := "" |}
         "1706432400000" "2024-01-28T09:00:00.000Z" = Persist e
       /\ HarvestEntry.harvestedCount e = 4.
Proof. split; [reflexivity|eexists; split; reflexivity]. Qed.
